(** * arxi-data: the ingestion pipeline of [services/data_loader.py]

    A shallow embedding of the loader ([utils/data_utils.py] and
    [services/data_loader.py]) and the properties of its specification.

    - JSON records are the values [ijson] yields: [None], [bool], [int],
      [decimal.Decimal], [str], [list] and [dict].
    - Python dictionaries are [gmap]s over hashed keys ([hash_key] is the
      interpreter's [hash]/[==] on keys: [1], [True] and [Decimal("1.0")]
      are one key, a [list] or a [dict] is unhashable).
    - Python floats are IEEE-754 binary64 numbers ([spec_float] at
      precision 53, maximal exponent 1024).
    - Statements run in a state-and-exception monad over the loader object
      and the application log; a raised exception keeps the mutations done
      before it, as in Python. *)

From Stdlib Require Import ZArith QArith Qcanon String Ascii List Bool Lia.
From Stdlib Require Import Floats.SpecFloat.
From stdpp Require Import base gmap strings list fin_maps.

Set Warnings "-register-all".

Local Open Scope string_scope.
Local Open Scope list_scope.

(** ** JSON values as decoded by [ijson.items] *)

Inductive value : Type :=
| VNone
| VBool (b : bool)
| VInt (z : Z)
| VDec (neg : bool) (m : N) (e : Z)  (* Decimal: (-1)^neg * m * 10^e *)
| VStr (s : string)
| VList (l : list value)
| VDict (d : list (string * value)).  (* bindings of a dict, keys distinct *)

(** ** Exceptions *)

Inductive exn : Type :=
| KeyError (k : string)
| TypeError
| AttributeError
| ValueError
| OverflowError
| OSError      (* open() on a missing or unreadable file *)
| JSONError    (* ijson: the stream is not valid JSON *)
| DataLoaderException (prefix : string) (cause : exn) (status_code : Z).
    (* DataLoaderException(f"{prefix}{str(cause)}", status_code) *)

Definition is_DataLoaderException (e : exn) : bool :=
  match e with DataLoaderException _ _ _ => true | _ => false end.

(** ** Floats *)

Definition float : Type := spec_float.
Definition f_prec : Z := 53.
Definition f_emax : Z := 1024.

Definition fzero : float := S754_zero false.
Definition fone : float := SFone f_prec f_emax.
Definition fadd : float -> float -> float := SFadd f_prec f_emax.
Definition fltb : float -> float -> bool := SFltb.
Definition fleb : float -> float -> bool := SFleb.

(** [float(n)] for an [int]: round to nearest even; [None] is the
    [OverflowError] of an integer too large for a float. *)
Definition float_of_int (z : Z) : option float :=
  match binary_normalize f_prec f_emax z 0 false with
  | S754_infinity _ => None
  | f => Some f
  end.

(** The float nearest to [(-1)^neg * m * 10^e] (overflow gives an infinity). *)
Definition float_of_decimal (neg : bool) (m : N) (e : Z) : float :=
  match m with
  | N0 => S754_zero neg
  | Npos p =>
      if (0 <=? e)%Z
      then binary_round f_prec f_emax neg (p * Z.to_pos (10 ^ e)) 0
      else SFdiv f_prec f_emax (S754_finite neg p 0)
                 (S754_finite false (Z.to_pos (10 ^ (- e))) 0)
  end.

(** *** [float(s)] for a [str] (ASCII) *)

Definition is_space (c : ascii) : bool :=
  let n := N_of_ascii c in
  ((9 <=? n) && (n <=? 13) || (28 <=? n) && (n <=? 32))%N.

Definition digit_of (c : ascii) : option N :=
  let n := N_of_ascii c in
  if ((48 <=? n) && (n <=? 57))%N then Some (n - 48)%N else None.

Definition is_digit (c : ascii) : bool :=
  match digit_of c with Some _ => true | None => false end.

Definition is_underscore (c : ascii) : bool := (N_of_ascii c =? 95)%N.

Definition lower (c : ascii) : ascii :=
  let n := N_of_ascii c in
  if ((65 <=? n) && (n <=? 90))%N then ascii_of_N (n + 32) else c.

Fixpoint drop_space (s : list ascii) : list ascii :=
  match s with
  | c :: r => if is_space c then drop_space r else s
  | [] => []
  end.

Definition strip (s : list ascii) : list ascii :=
  rev (drop_space (rev (drop_space s))).

(** An underscore is allowed only between two digits. *)
Fixpoint strip_underscores (prev : ascii) (s : list ascii)
  : option (list ascii) :=
  match s with
  | [] => if is_underscore prev then None else Some []
  | c :: r =>
      if is_underscore c then
        if is_digit prev then strip_underscores c r else None
      else if is_underscore prev && negb (is_digit c) then None
      else option_map (cons c) (strip_underscores c r)
  end.

Definition take_sign (s : list ascii) : bool * list ascii :=
  match s with
  | c :: r =>
      if (N_of_ascii c =? 45)%N then (true, r)
      else if (N_of_ascii c =? 43)%N then (false, r)
      else (false, s)
  | [] => (false, [])
  end.

(** Leading decimal digits: their value on top of [acc], how many, the rest. *)
Fixpoint take_digits (s : list ascii) (acc : N) (n : nat)
  : N * nat * list ascii :=
  match s with
  | c :: r =>
      match digit_of c with
      | Some d => take_digits r (10 * acc + d)%N (S n)
      | None => (acc, n, s)
      end
  | [] => (acc, n, [])
  end.

Definition is_char (n : N) (c : ascii) : bool := (N_of_ascii c =? n)%N.

(** [digits [. digits] [(e|E) [sign] digits]] or [. digits ...]:
    the mantissa and the decimal exponent. *)
Definition parse_decimal (s : list ascii) : option (N * Z) :=
  let '(m1, n1, r1) := take_digits s 0%N 0%nat in
  let '(m2, n2, r2) :=
    match r1 with
    | c :: r => if is_char 46 c then take_digits r m1 0%nat else (m1, 0%nat, r1)
    | [] => (m1, 0%nat, r1)
    end in
  if Nat.eqb (n1 + n2) 0 then None else
  match r2 with
  | [] => Some (m2, (- Z.of_nat n2)%Z)
  | c :: r =>
      if is_char 101 c || is_char 69 c then
        let '(sg, r') := take_sign r in
        let '(x, nx, r'') := take_digits r' 0%N 0%nat in
        match nx, r'' with
        | S _, [] =>
            Some (m2, ((if sg then - Z.of_N x else Z.of_N x) - Z.of_nat n2)%Z)
        | _, _ => None
        end
      else None
  end.

Definition float_of_string (s : string) : option float :=
  match strip_underscores zero (strip (list_ascii_of_string s)) with
  | None => None
  | Some t =>
      let '(neg, body) := take_sign t in
      let word := string_of_list_ascii (map lower body) in
      if String.eqb word "inf" || String.eqb word "infinity"
      then Some (S754_infinity neg)
      else if String.eqb word "nan" then Some S754_nan
      else match parse_decimal body with
           | Some (m, e) => Some (float_of_decimal neg m e)
           | None => None
           end
  end.

(** The builtin [float(v)]: the float, or the exception it raises. *)
Definition py_float (v : value) : exn + float :=
  match v with
  | VNone => inl TypeError
  | VBool b => inr (if b then fone else fzero)
  | VInt z =>
      match float_of_int z with
      | Some f => inr f
      | None => inl OverflowError
      end
  | VDec neg m e => inr (float_of_decimal neg m e)
  | VStr s =>
      match float_of_string s with
      | Some f => inr f
      | None => inl ValueError
      end
  | VList _ | VDict _ => inl TypeError
  end.

(** [max(x, 0.0)]: the second argument replaces the first only when it is
    strictly greater. *)
Definition py_max0 (x : float) : float := if fltb x fzero then fzero else x.

(** ** Truthiness, hashing and dictionary keys *)

(** [bool(v)] as used by [if v:] and [not v]. *)
Definition truthy (v : value) : bool :=
  match v with
  | VNone => false
  | VBool b => b
  | VInt z => negb (z =? 0)%Z
  | VDec _ m _ => negb (m =? 0)%N
  | VStr s => negb (String.eqb s "")
  | VList l => match l with [] => false | _ => true end
  | VDict d => match d with [] => false | _ => true end
  end.

(** A dictionary key up to Python's [==]: numbers by their value, whatever
    their type. *)
Inductive key : Type :=
| KNone
| KNum (q : Qc)
| KStr (s : string).

#[global] Instance key_eq_dec : EqDecision key.
Proof. solve_decision. Defined.

#[global] Instance key_countable : Countable key.
Proof.
  refine (inj_countable'
    (fun k => match k with
              | KNone => inl tt
              | KNum q => inr (inl q)
              | KStr s => inr (inr s)
              end)
    (fun x => match x with
              | inl _ => KNone
              | inr (inl q) => KNum q
              | inr (inr s) => KStr s
              end) _).
  intros []; reflexivity.
Defined.

(** The rational [(-1)^neg * m * 10^e]. *)
Definition Qc_of_decimal (neg : bool) (m : N) (e : Z) : Qc :=
  Q2Qc (inject_Z (if neg then - Z.of_N m else Z.of_N m) * Qpower (10 # 1) e).

(** [hash(v)]: the key [v] denotes, or [None] for an unhashable [v]
    ([TypeError]). *)
Definition hash_key (v : value) : option key :=
  match v with
  | VNone => Some KNone
  | VBool b => Some (KNum (Q2Qc (inject_Z (if b then 1 else 0))))
  | VInt z => Some (KNum (Q2Qc (inject_Z z)))
  | VDec neg m e => Some (KNum (Qc_of_decimal neg m e))
  | VStr s => Some (KStr s)
  | VList _ | VDict _ => None
  end.

(** The value bound to [k] in the bindings of a [dict]. *)
Fixpoint dict_lookup (k : string) (d : list (string * value)) : option value :=
  match d with
  | [] => None
  | (k', v) :: r => if String.eqb k k' then Some v else dict_lookup k r
  end.

(** ** [utils/data_utils.py]: [extract_id] *)

Definition extract_id (id_field : value) : value :=
  match id_field with
  | VList (x :: _) => x
  | _ => VNone
  end.

(** ** The loader object and the application log *)

Record index_entry := { ie_name : value; ie_parent : option string }.
Record category_ref := { cr_id : value; cr_name : value }.
Record country_ref := { co_code : value; co_name : value }.

Record DataLoader := {
  categories : gmap key value;
  products : gmap key value;
  contacts : gmap key value;
  category_index : gmap key index_entry;
  product_category_map : gmap key category_ref;
  category_sales : gmap key float;
  category_product_sales : gmap key (gmap key float);
  country_product_sales : gmap key (gmap key float);
  client_products : gmap key (gset key);
  contact_country_map : gmap key country_ref;
  country_code_map : gmap key value
}.

Inductive log_entry : Type :=
| Info_starting                                   (* "Starting data initialization" *)
| Info_loaded (n : nat) (what : string)           (* f"Loaded {n} {what}" *)
| Info_summary (ncat nprod ncont nsales : nat)    (* log_data_summary *)
| Warning_invalid_numeric (v : value)
| Warning_country_conflict (name existing new : value)
| Error_stage (prefix : string) (e : exn)         (* f"{prefix}{str(e)}" *)
| Error_failed_to_load (data_type : string) (e : exn).

Record world := { loader : DataLoader; log : list log_entry }.

(** ** The state-and-exception monad *)

Inductive res (A : Type) : Type :=
| Ok (a : A)
| Raise (e : exn).
Arguments Ok {A} a.
Arguments Raise {A} e.

Definition M (A : Type) : Type := world -> res A * world.

Definition ret {A} (a : A) : M A := fun w => (Ok a, w).
Definition raise {A} (e : exn) : M A := fun w => (Raise e, w).
Definition bind {A B} (m : M A) (k : A -> M B) : M B :=
  fun w => match m w with
           | (Ok a, w') => k a w'
           | (Raise e, w') => (Raise e, w')
           end.

Notation "'let*' x ':=' m 'in' k" := (bind m (fun x => k))
  (at level 10, x name, m at level 100, k at level 200).
Notation "m '>>' k" := (bind m (fun _ => k))
  (at level 100, k at level 200, right associativity).

(** [try: m  except Exception as e: h e] *)
Definition try_except {A} (m : M A) (h : exn -> M A) : M A :=
  fun w => match m w with
           | (Ok a, w') => (Ok a, w')
           | (Raise e, w') => h e w'
           end.

Definition read {A} (f : DataLoader -> A) : M A := fun w => (Ok (f (loader w)), w).
Definition modify (f : DataLoader -> DataLoader) : M unit :=
  fun w => (Ok tt, {| loader := f (loader w); log := log w |}).
Definition logger (e : log_entry) : M unit :=
  fun w => (Ok tt, {| loader := loader w; log := log w ++ [e] |}).
Definition lift {A} (r : exn + A) : M A :=
  match r with inl e => raise e | inr a => ret a end.

(** *** Operations of the interpreter on record values *)

(** [v.get(k, dflt)] *)
Definition py_get (v : value) (k : string) (dflt : value) : M value :=
  match v with
  | VDict d => ret (default dflt (dict_lookup k d))
  | _ => raise AttributeError
  end.

(** [v[k]] for a string [k] *)
Definition py_getitem (v : value) (k : string) : M value :=
  match v with
  | VDict d => match dict_lookup k d with
               | Some x => ret x
               | None => raise (KeyError k)
               end
  | _ => raise TypeError
  end.

(** [v.startswith(p)] *)
Definition py_startswith (v : value) (p : string) : M bool :=
  match v with
  | VStr s => ret (String.prefix p s)
  | _ => raise AttributeError
  end.

(** hashing a key on a dictionary or set access *)
Definition py_hash (v : value) : M key :=
  match hash_key v with
  | Some k => ret k
  | None => raise TypeError
  end.

(** ** [utils/data_utils.py]: [validate_numeric] *)

Definition validate_numeric (v : value) (dflt : float) : M float :=
  try_except
    (let* x := lift (py_float v) in ret (py_max0 x))
    (fun e => match e with
              | TypeError | ValueError =>
                  logger (Warning_invalid_numeric v) >> ret dflt
              | _ => raise e
              end).

(** *** Equality of decoded values *)

(** The number a value compares as, if it is one ([bool], [int], [Decimal]). *)
Definition num_of (v : value) : option Qc :=
  match v with
  | VBool b => Some (Q2Qc (inject_Z (if b then 1 else 0)))
  | VInt z => Some (Q2Qc (inject_Z z))
  | VDec neg m e => Some (Qc_of_decimal neg m e)
  | _ => None
  end.

(** [a == b] *)
Fixpoint py_eq (a b : value) {struct a} : bool :=
  match a, b with
  | VNone, VNone => true
  | VStr s, VStr t => String.eqb s t
  | VList l, VList l' =>
      (fix go (l l' : list value) : bool :=
         match l, l' with
         | [], [] => true
         | x :: r, y :: r' => py_eq x y && go r r'
         | _, _ => false
         end) l l'
  | VDict d, VDict d' =>
      Nat.eqb (length d) (length d') &&
      (fix go (d : list (string * value)) : bool :=
         match d with
         | [] => true
         | (k, v) :: r =>
             match dict_lookup k d' with
             | Some v' => py_eq v v'
             | None => false
             end && go r
         end) d
  | _, _ =>
      match num_of a, num_of b with
      | Some p, Some q => bool_decide (p = q)
      | _, _ => false
      end
  end.

(** *** Field updates of the loader object *)

Definition set_categories (f : gmap key value -> gmap key value) (d : DataLoader) :=
  {| categories := f (categories d); products := products d; contacts := contacts d;
     category_index := category_index d; product_category_map := product_category_map d;
     category_sales := category_sales d; category_product_sales := category_product_sales d;
     country_product_sales := country_product_sales d; client_products := client_products d;
     contact_country_map := contact_country_map d; country_code_map := country_code_map d |}.
Definition set_products (f : gmap key value -> gmap key value) (d : DataLoader) :=
  {| categories := categories d; products := f (products d); contacts := contacts d;
     category_index := category_index d; product_category_map := product_category_map d;
     category_sales := category_sales d; category_product_sales := category_product_sales d;
     country_product_sales := country_product_sales d; client_products := client_products d;
     contact_country_map := contact_country_map d; country_code_map := country_code_map d |}.
Definition set_contacts (f : gmap key value -> gmap key value) (d : DataLoader) :=
  {| categories := categories d; products := products d; contacts := f (contacts d);
     category_index := category_index d; product_category_map := product_category_map d;
     category_sales := category_sales d; category_product_sales := category_product_sales d;
     country_product_sales := country_product_sales d; client_products := client_products d;
     contact_country_map := contact_country_map d; country_code_map := country_code_map d |}.
Definition set_category_index
    (f : gmap key index_entry -> gmap key index_entry) (d : DataLoader) :=
  {| categories := categories d; products := products d; contacts := contacts d;
     category_index := f (category_index d); product_category_map := product_category_map d;
     category_sales := category_sales d; category_product_sales := category_product_sales d;
     country_product_sales := country_product_sales d; client_products := client_products d;
     contact_country_map := contact_country_map d; country_code_map := country_code_map d |}.
Definition set_product_category_map
    (f : gmap key category_ref -> gmap key category_ref) (d : DataLoader) :=
  {| categories := categories d; products := products d; contacts := contacts d;
     category_index := category_index d; product_category_map := f (product_category_map d);
     category_sales := category_sales d; category_product_sales := category_product_sales d;
     country_product_sales := country_product_sales d; client_products := client_products d;
     contact_country_map := contact_country_map d; country_code_map := country_code_map d |}.
Definition set_category_sales (f : gmap key float -> gmap key float) (d : DataLoader) :=
  {| categories := categories d; products := products d; contacts := contacts d;
     category_index := category_index d; product_category_map := product_category_map d;
     category_sales := f (category_sales d); category_product_sales := category_product_sales d;
     country_product_sales := country_product_sales d; client_products := client_products d;
     contact_country_map := contact_country_map d; country_code_map := country_code_map d |}.
Definition set_category_product_sales
    (f : gmap key (gmap key float) -> gmap key (gmap key float)) (d : DataLoader) :=
  {| categories := categories d; products := products d; contacts := contacts d;
     category_index := category_index d; product_category_map := product_category_map d;
     category_sales := category_sales d; category_product_sales := f (category_product_sales d);
     country_product_sales := country_product_sales d; client_products := client_products d;
     contact_country_map := contact_country_map d; country_code_map := country_code_map d |}.
Definition set_country_product_sales
    (f : gmap key (gmap key float) -> gmap key (gmap key float)) (d : DataLoader) :=
  {| categories := categories d; products := products d; contacts := contacts d;
     category_index := category_index d; product_category_map := product_category_map d;
     category_sales := category_sales d; category_product_sales := category_product_sales d;
     country_product_sales := f (country_product_sales d); client_products := client_products d;
     contact_country_map := contact_country_map d; country_code_map := country_code_map d |}.
Definition set_client_products
    (f : gmap key (gset key) -> gmap key (gset key)) (d : DataLoader) :=
  {| categories := categories d; products := products d; contacts := contacts d;
     category_index := category_index d; product_category_map := product_category_map d;
     category_sales := category_sales d; category_product_sales := category_product_sales d;
     country_product_sales := country_product_sales d; client_products := f (client_products d);
     contact_country_map := contact_country_map d; country_code_map := country_code_map d |}.
Definition set_contact_country_map
    (f : gmap key country_ref -> gmap key country_ref) (d : DataLoader) :=
  {| categories := categories d; products := products d; contacts := contacts d;
     category_index := category_index d; product_category_map := product_category_map d;
     category_sales := category_sales d; category_product_sales := category_product_sales d;
     country_product_sales := country_product_sales d; client_products := client_products d;
     contact_country_map := f (contact_country_map d);
     country_code_map := country_code_map d |}.
Definition set_country_code_map (f : gmap key value -> gmap key value) (d : DataLoader) :=
  {| categories := categories d; products := products d; contacts := contacts d;
     category_index := category_index d; product_category_map := product_category_map d;
     category_sales := category_sales d; category_product_sales := category_product_sales d;
     country_product_sales := country_product_sales d; client_products := client_products d;
     contact_country_map := contact_country_map d;
     country_code_map := f (country_code_map d) |}.

(** *** [defaultdict] updates *)

(** [d[k] += q] on a [defaultdict(float)] *)
Definition add_float (k : key) (q : float) (d : gmap key float) : gmap key float :=
  <[k := fadd (default fzero (d !! k)) q]> d.

(** [d[k1][k2] += q] on a [defaultdict(lambda: defaultdict(float))] *)
Definition add_float2 (k1 k2 : key) (q : float) (d : gmap key (gmap key float))
  : gmap key (gmap key float) :=
  <[k1 := add_float k2 q (default ∅ (d !! k1))]> d.

(** [d[k].add(x)] on a [defaultdict(set)] *)
Definition add_member (k x : key) (d : gmap key (gset key)) : gmap key (gset key) :=
  <[k := {[x]} ∪ default ∅ (d !! k)]> d.

(** [utils/data_utils.py]: [log_data_summary] *)
Definition log_data_summary : M unit :=
  let* d := read (fun d => d) in
  logger (Info_summary (size (categories d)) (size (products d)) (size (contacts d))
            (map_fold (fun _ (v : gmap key float) acc => size v + acc) 0
                      (country_product_sales d))).

(** ** The input files

    [with open(path) as f: for item in ijson.items(f, "item"): ...]:
    either [open] raises, or the stream yields its items one at a time and
    then ends, normally or on a parse error. *)

Inductive source : Type :=
| Unreadable (e : exn)
| Stream (items : list value) (fault : option exn).

Record files := {
  categories_json : source;
  products_json : source;
  contacts_json : source;
  sale_order_lines_json : source
}.

(** [for x in l: body x] *)
Fixpoint for_each {A} (body : A -> M unit) (l : list A) : M unit :=
  match l with
  | [] => ret tt
  | x :: r => body x >> for_each body r
  end.

(** The generator is exhausted, or raises its parse error. *)
Definition end_of_stream (fault : option exn) : M unit :=
  match fault with
  | Some e => raise e
  | None => ret tt
  end.

(** [with open(...) as f: for item in ijson.items(f, "item"): body item] *)
Definition for_items (src : source) (body : value -> M unit) : M unit :=
  match src with
  | Unreadable e => raise e
  | Stream items fault => for_each body items >> end_of_stream fault
  end.

(** ** [services/data_loader.py]: the load strategies *)

(** ["No Parent" if isinstance(parent_info, bool) and parent_info else None] *)
Definition parent_name_of (parent_info : value) : option string :=
  match parent_info with
  | VBool true => Some "No Parent"
  | _ => None
  end.

Module CategoryLoadStrategy.

(** [CategoryLoadStrategy._process_category] *)
Definition _process_category (category : value) : M unit :=
  let* parent_info := py_get category "parent_id" VNone in
  let parent_name := parent_name_of parent_info in
  let* id := py_getitem category "id" in
  let* k := py_hash id in
  modify (set_categories (insert k category)) >>
  let* name := py_getitem category "name" in
  let* id' := py_getitem category "id" in
  let* k' := py_hash id' in
  modify (set_category_index
            (insert k' {| ie_name := name; ie_parent := parent_name |})).

(** [CategoryLoadStrategy.load] *)
Definition load (fs : files) : M unit :=
  try_except
    (for_items (categories_json fs) _process_category >>
     let* n := read (fun d => size (categories d)) in
     logger (Info_loaded n "categories"))
    (fun e =>
       logger (Error_stage "Category load error: " e) >>
       raise (DataLoaderException "Category loading failed: " e 500)).

End CategoryLoadStrategy.

Module ProductLoadStrategy.

(** [ProductLoadStrategy._process_product] *)
Definition _process_product (product : value) : M unit :=
  let* id := py_getitem product "id" in
  let* k := py_hash id in
  modify (set_products (insert k product)) >>
  let* categ_info := py_get product "categ_id" VNone in
  match categ_info with
  | VList l =>
      let entry :=
        {| cr_id := match l with x :: _ => x | [] => VNone end;
           cr_name := match l with _ :: y :: _ => y | _ => VStr "Unnamed Category" end |} in
      let* id' := py_getitem product "id" in
      let* k' := py_hash id' in
      modify (set_product_category_map (insert k' entry))
  | _ => ret tt
  end.

(** [ProductLoadStrategy.load] *)
Definition load (fs : files) : M unit :=
  try_except
    (for_items (products_json fs) _process_product >>
     let* n := read (fun d => size (products d)) in
     logger (Info_loaded n "products"))
    (fun e =>
       logger (Error_stage "Product load error: " e) >>
       raise (DataLoaderException "Product loading failed: " e 500)).

End ProductLoadStrategy.

Module ContactLoadStrategy.

(** [ContactLoadStrategy._process_contact] *)
Definition _process_contact (contact : value) : M unit :=
  let* contact_id := py_getitem contact "id" in
  let* k := py_hash contact_id in
  modify (set_contacts (insert k contact)) >>
  let* country_info := py_get contact "country_id" VNone in
  match country_info with
  | VList (country_code :: country_name :: _) =>
      modify (set_contact_country_map
                (insert k {| co_code := country_code; co_name := country_name |})) >>
      let* nk := py_hash country_name in
      let* existing := read (fun d => country_code_map d !! nk) in
      match existing with
      | Some code =>
          if negb (py_eq code country_code)
          then logger (Warning_country_conflict country_name code country_code)
          else ret tt
      | None => modify (set_country_code_map (insert nk country_code))
      end
  | _ => ret tt
  end.

(** [ContactLoadStrategy.load] *)
Definition load (fs : files) : M unit :=
  try_except
    (for_items (contacts_json fs) _process_contact >>
     let* n := read (fun d => size (contacts d)) in
     logger (Info_loaded n "contacts"))
    (fun e =>
       logger (Error_stage "Contact load error: " e) >>
       raise (DataLoaderException "Contact loading failed: " e 500)).

End ContactLoadStrategy.

Module SalesLoadStrategy.

(** [SalesLoadStrategy._process_sale] *)
Definition _process_sale (sale : value) : M bool :=
  let* create_date := py_get sale "create_date" (VStr "") in
  let* in_period := py_startswith create_date "2024" in
  if negb in_period then ret false else
  let* product_field := py_get sale "product_id" VNone in
  let product_id := extract_id product_field in
  let* customer_field := py_get sale "order_partner_id" VNone in
  let customer_id := extract_id customer_field in
  if negb (truthy product_id) then ret false else
  let* qty_field := py_get sale "product_uom_qty" (VInt 0) in
  let* quantity := validate_numeric qty_field fzero in
  let* ck := py_hash customer_id in
  let* country_data := read (fun d => contact_country_map d !! ck) in
  let country_name :=
    match country_data with
    | Some c => co_name c
    | None => VStr "Unknown"
    end in
  let* pk := py_hash product_id in
  let* category := read (fun d => product_category_map d !! pk) in
  let category_id :=
    match category with
    | Some c => cr_id c
    | None => VNone
    end in
  (if truthy category_id then
     let* cik := py_hash category_id in
     modify (set_category_sales (add_float cik quantity)) >>
     modify (set_category_product_sales (add_float2 cik pk quantity))
   else ret tt) >>
  let* cnk := py_hash country_name in
  modify (set_country_product_sales (add_float2 cnk pk quantity)) >>
  (if truthy customer_id then modify (set_client_products (add_member ck pk))
   else ret tt) >>
  ret true.

(** The record loop of [load], with its [processed] counter. *)
Fixpoint count_sales (items : list value) (processed : nat) : M nat :=
  match items with
  | [] => ret processed
  | sale :: r =>
      let* ok := _process_sale sale in
      count_sales r (if ok then S processed else processed)
  end.

(** [SalesLoadStrategy.load] *)
Definition load (fs : files) : M unit :=
  try_except
    (match sale_order_lines_json fs with
     | Unreadable e => raise e
     | Stream items fault =>
         count_sales items 0 >> end_of_stream fault
     end >>
     log_data_summary)
    (fun e =>
       logger (Error_stage "Sales processing failed: " e) >>
       raise (DataLoaderException "Sales processing error: " e 500)).

End SalesLoadStrategy.

Import CategoryLoadStrategy ProductLoadStrategy ContactLoadStrategy SalesLoadStrategy.

(** ** The factory and the orchestrator *)

(** The strategy objects of the factory, and [loader.load(self)] on them. *)
Inductive strategy : Type :=
| CategoryLoadStrategy
| ProductLoadStrategy
| ContactLoadStrategy
| SalesLoadStrategy.

Definition load (s : strategy) (fs : files) : M unit :=
  match s with
  | CategoryLoadStrategy => CategoryLoadStrategy.load fs
  | ProductLoadStrategy => ProductLoadStrategy.load fs
  | ContactLoadStrategy => ContactLoadStrategy.load fs
  | SalesLoadStrategy => SalesLoadStrategy.load fs
  end.

Module DataLoadFactory.

(** [get_loader]: for an unknown type the [ValueError]
    object is returned, not raised. *)
Definition get_loader (data_type : string) : strategy + exn :=
  if String.eqb data_type "categories" then inl CategoryLoadStrategy
  else if String.eqb data_type "products" then inl ProductLoadStrategy
  else if String.eqb data_type "contacts" then inl ContactLoadStrategy
  else if String.eqb data_type "sales" then inl SalesLoadStrategy
  else inr ValueError.

End DataLoadFactory.

Module DataLoader.

(** [DataLoader.__init__] *)
Definition __init__ : DataLoader :=
  {| categories := ∅; products := ∅; contacts := ∅; category_index := ∅;
     product_category_map := ∅; category_sales := ∅;
     category_product_sales := ∅; country_product_sales := ∅;
     client_products := ∅; contact_country_map := ∅; country_code_map := ∅ |}.

(** [load_data] *)
Definition load_data (fs : files) (data_type : string) : M unit :=
  match DataLoadFactory.get_loader data_type with
  | inl s => load s fs
  | inr _ => raise AttributeError   (* the exception object has no [load] *)
  end.

(** [initialize_data] *)
Definition initialize_data (fs : files) : M unit :=
  logger Info_starting >>
  for_each
    (fun data_type =>
       try_except (load_data fs data_type)
         (fun e =>
            if is_DataLoaderException e
            then logger (Error_failed_to_load data_type e) >> raise e
            else raise e))
    ["categories"; "products"; "contacts"; "sales"] >>
  log_data_summary.

End DataLoader.

Import DataLoadFactory DataLoader.

(** The world at start-up: a fresh loader and an empty log. *)
Definition world_init : world := {| loader := DataLoader.__init__; log := [] |}.

(** * Notions used in the statements *)

(** ** Sale records *)

(** The [create_date] of the record is a string that starts with ["2024"]. *)
Definition starts_2024 (sale : value) : bool :=
  match sale with
  | VDict d =>
      match dict_lookup "create_date" d with
      | Some (VStr s) => String.prefix "2024" s
      | _ => false
      end
  | _ => false
  end.

(** The fields of a sale record as [_process_sale] reads them. *)
Definition sale_field (sale : value) (k : string) (dflt : value) : value :=
  match sale with
  | VDict d => default dflt (dict_lookup k d)
  | _ => dflt
  end.
Definition sale_product_id (sale : value) : value :=
  extract_id (sale_field sale "product_id" VNone).
Definition sale_customer_id (sale : value) : value :=
  extract_id (sale_field sale "order_partner_id" VNone).
Definition sale_quantity (sale : value) : value :=
  sale_field sale "product_uom_qty" (VInt 0).

(** The country name a customer resolves to, ["Unknown"] by default. *)
Definition country_name_of (d : DataLoader) (ck : key) : value :=
  match contact_country_map d !! ck with
  | Some c => co_name c
  | None => VStr "Unknown"
  end.

(** The category id a product resolves to, [None] when it has none. *)
Definition category_id_of (d : DataLoader) (pk : key) : value :=
  match product_category_map d !! pk with
  | Some c => cr_id c
  | None => VNone
  end.

(** The category key to credit: [Some None] for a falsy category id,
    [None] for a truthy id that cannot be hashed. *)
Definition category_key_of (cid : value) : option (option key) :=
  if truthy cid then option_map Some (hash_key cid) else Some None.

(** [m[k1][k2]] read as on a [defaultdict]: [0.0] for a missing entry. *)
Definition sales_at (m : gmap key (gmap key float)) (k1 k2 : key) : float :=
  default fzero (default ∅ (m !! k1) !! k2).

(** What a sale record that gets through does to the loader. *)
Definition sale_effect (pk ck cnk : key) (cat : option key) (q : float)
    (with_customer : bool) (d : DataLoader) : DataLoader :=
  let d1 :=
    match cat with
    | Some cik =>
        set_category_product_sales (add_float2 cik pk q)
          (set_category_sales (add_float cik q) d)
    | None => d
    end in
  let d2 := set_country_product_sales (add_float2 cnk pk q) d1 in
  if with_customer then set_client_products (add_member ck pk) d2 else d2.

Definition key_of_int (z : Z) : key := KNum (Q2Qc (inject_Z z)).

(** The float [3.0]. *)
Definition f_three : float := S754_finite false 6755399441055744 (-51).

(** ** The load strategies *)

(** The file a strategy streams. *)
Definition stage_source (s : strategy) (fs : files) : source :=
  match s with
  | CategoryLoadStrategy => categories_json fs
  | ProductLoadStrategy => products_json fs
  | ContactLoadStrategy => contacts_json fs
  | SalesLoadStrategy => sale_order_lines_json fs
  end.

(** The per-record transform of a strategy. *)
Definition transform (s : strategy) : value -> M unit :=
  match s with
  | CategoryLoadStrategy => _process_category
  | ProductLoadStrategy => _process_product
  | ContactLoadStrategy => _process_contact
  | SalesLoadStrategy => fun sale => _process_sale sale >> ret tt
  end.

(** The message prefixes of a strategy's [except] clause. *)
Definition error_prefix (s : strategy) : string :=
  match s with
  | CategoryLoadStrategy => "Category load error: "
  | ProductLoadStrategy => "Product load error: "
  | ContactLoadStrategy => "Contact load error: "
  | SalesLoadStrategy => "Sales processing failed: "
  end.
Definition failure_prefix (s : strategy) : string :=
  match s with
  | CategoryLoadStrategy => "Category loading failed: "
  | ProductLoadStrategy => "Product loading failed: "
  | ContactLoadStrategy => "Contact loading failed: "
  | SalesLoadStrategy => "Sales processing error: "
  end.

(** What a strategy logs when its stream has been consumed. *)
Definition success_log (s : strategy) : M unit :=
  match s with
  | CategoryLoadStrategy =>
      let* n := read (fun d => size (categories d)) in logger (Info_loaded n "categories")
  | ProductLoadStrategy =>
      let* n := read (fun d => size (products d)) in logger (Info_loaded n "products")
  | ContactLoadStrategy =>
      let* n := read (fun d => size (contacts d)) in logger (Info_loaded n "contacts")
  | SalesLoadStrategy => log_data_summary
  end.

(** The [try] block of a strategy. *)
Definition stage_body (s : strategy) (fs : files) : M unit :=
  for_items (stage_source s fs) (transform s) >> success_log s.

Definition forget {A} (c : res A * world) : res unit * world :=
  match c with
  | (Ok _, w) => (Ok tt, w)
  | (Raise e, w) => (Raise e, w)
  end.

Definition wrapped (s : strategy) (e : exn) : exn :=
  DataLoaderException (failure_prefix s) e 500.

Definition no_file : source := Stream [] None.

(** ** The orchestrator *)

(** The world once [initialize_data] has logged its start. *)
Definition starting (w : world) : world :=
  {| loader := loader w; log := log w ++ [Info_starting] |}.

(** The outcome of [initialize_data] when the stage [data_type] raised [e]
    and left the world [w]: the error is logged and raised again. *)
Definition failed (data_type : string) (e : exn) (w : world) : res unit * world :=
  (Raise e, {| loader := loader w; log := log w ++ [Error_failed_to_load data_type e] |}).

(** ** A second initialization

    The updates a run makes to the loader, as data: every statement of the
    strategies that mutates the loader is one [op]. *)

Inductive op : Type :=
| PutCategory (k : key) (v : value)
| PutProduct (k : key) (v : value)
| PutContact (k : key) (v : value)
| PutCategoryIndex (k : key) (e : index_entry)
| PutProductCategory (k : key) (c : category_ref)
| PutContactCountry (k : key) (c : country_ref)
| PutCountryCode (k : key) (v : value)   (* only when the name has no code yet *)
| AddCategorySales (cik : key) (q : float)
| AddCategoryProductSales (cik pk : key) (q : float)
| AddCountryProductSales (cnk pk : key) (q : float)
| AddClientProduct (ck pk : key).

Definition put_if_absent (k : key) (v : value) (m : gmap key value) : gmap key value :=
  match m !! k with
  | Some _ => m
  | None => <[k := v]> m
  end.

Definition apply_op (o : op) (d : DataLoader) : DataLoader :=
  match o with
  | PutCategory k v => set_categories (insert k v) d
  | PutProduct k v => set_products (insert k v) d
  | PutContact k v => set_contacts (insert k v) d
  | PutCategoryIndex k e => set_category_index (insert k e) d
  | PutProductCategory k c => set_product_category_map (insert k c) d
  | PutContactCountry k c => set_contact_country_map (insert k c) d
  | PutCountryCode k v => set_country_code_map (put_if_absent k v) d
  | AddCategorySales cik q => set_category_sales (add_float cik q) d
  | AddCategoryProductSales cik pk q => set_category_product_sales (add_float2 cik pk q) d
  | AddCountryProductSales cnk pk q => set_country_product_sales (add_float2 cnk pk q) d
  | AddClientProduct ck pk => set_client_products (add_member ck pk) d
  end.

Definition apply_ops (ops : list op) (d : DataLoader) : DataLoader :=
  fold_left (fun d o => apply_op o d) ops d.

(** The sales stage reads two tables the earlier stages built. *)
Definition refs : Type := gmap key country_ref * gmap key category_ref.
Definition refs_of (d : DataLoader) : refs :=
  (contact_country_map d, product_category_map d).

(** What [validate_numeric] returns or raises, the log apart. *)
Definition numeric_outcome (v : value) (dflt : float) : res float :=
  match py_float v with
  | inr x => Ok (py_max0 x)
  | inl TypeError | inl ValueError => Ok dflt
  | inl e => Raise e
  end.

(** What each per-record transform returns or raises, and the updates it
    makes on the way. *)
Definition category_den (c : value) : res unit * list op :=
  match c with
  | VDict d =>
      match dict_lookup "id" d with
      | None => (Raise (KeyError "id"), [])
      | Some id =>
          match hash_key id with
          | None => (Raise TypeError, [])
          | Some k =>
              match dict_lookup "name" d with
              | None => (Raise (KeyError "name"), [PutCategory k c])
              | Some name =>
                  (Ok tt,
                   [PutCategory k c;
                    PutCategoryIndex k
                      {| ie_name := name;
                         ie_parent := parent_name_of
                                        (default VNone (dict_lookup "parent_id" d)) |}])
              end
          end
      end
  | _ => (Raise AttributeError, [])
  end.

Definition product_den (p : value) : res unit * list op :=
  match p with
  | VDict d =>
      match dict_lookup "id" d with
      | None => (Raise (KeyError "id"), [])
      | Some id =>
          match hash_key id with
          | None => (Raise TypeError, [])
          | Some k =>
              match default VNone (dict_lookup "categ_id" d) with
              | VList l =>
                  (Ok tt,
                   [PutProduct k p;
                    PutProductCategory k
                      {| cr_id := match l with x :: _ => x | [] => VNone end;
                         cr_name := match l with
                                    | _ :: y :: _ => y
                                    | _ => VStr "Unnamed Category"
                                    end |}])
              | _ => (Ok tt, [PutProduct k p])
              end
          end
      end
  | _ => (Raise TypeError, [])
  end.

Definition contact_den (c : value) : res unit * list op :=
  match c with
  | VDict d =>
      match dict_lookup "id" d with
      | None => (Raise (KeyError "id"), [])
      | Some id =>
          match hash_key id with
          | None => (Raise TypeError, [])
          | Some k =>
              match default VNone (dict_lookup "country_id" d) with
              | VList (code :: name :: _) =>
                  let puts := [PutContact k c;
                               PutContactCountry k {| co_code := code; co_name := name |}] in
                  match hash_key name with
                  | None => (Raise TypeError, puts)
                  | Some nk => (Ok tt, puts ++ [PutCountryCode nk code])
                  end
              | _ => (Ok tt, [PutContact k c])
              end
          end
      end
  | _ => (Raise TypeError, [])
  end.

Definition sale_den (r : refs) (sale : value) : res unit * list op :=
  match sale with
  | VDict d =>
      match default (VStr "") (dict_lookup "create_date" d) with
      | VStr s =>
          if negb (String.prefix "2024" s) then (Ok tt, []) else
          let product_id := extract_id (default VNone (dict_lookup "product_id" d)) in
          let customer_id :=
            extract_id (default VNone (dict_lookup "order_partner_id" d)) in
          if negb (truthy product_id) then (Ok tt, []) else
          match numeric_outcome (default (VInt 0) (dict_lookup "product_uom_qty" d)) fzero with
          | Raise e => (Raise e, [])
          | Ok q =>
              match hash_key customer_id, hash_key product_id with
              | None, _ | Some _, None => (Raise TypeError, [])
              | Some ck, Some pk =>
                  let country_name :=
                    match fst r !! ck with
                    | Some c => co_name c
                    | None => VStr "Unknown"
                    end in
                  let category_id :=
                    match snd r !! pk with
                    | Some c => cr_id c
                    | None => VNone
                    end in
                  match category_key_of category_id with
                  | None => (Raise TypeError, [])
                  | Some cat =>
                      let cat_ops :=
                        match cat with
                        | Some cik => [AddCategorySales cik q;
                                       AddCategoryProductSales cik pk q]
                        | None => []
                        end in
                      match hash_key country_name with
                      | None => (Raise TypeError, cat_ops)
                      | Some cnk =>
                          (Ok tt,
                           cat_ops ++ [AddCountryProductSales cnk pk q] ++
                           (if truthy customer_id then [AddClientProduct ck pk] else []))
                      end
                  end
              end
          end
      | _ => (Raise AttributeError, [])
      end
  | _ => (Raise AttributeError, [])
  end.

Definition record_den (s : strategy) (r : refs) : value -> res unit * list op :=
  match s with
  | CategoryLoadStrategy => category_den
  | ProductLoadStrategy => product_den
  | ContactLoadStrategy => contact_den
  | SalesLoadStrategy => sale_den r
  end.

(** The updates of the sales stage: they leave the reference tables alone. *)
Definition is_aggregate (o : op) : bool :=
  match o with
  | AddCategorySales _ _ | AddCategoryProductSales _ _ _
  | AddCountryProductSales _ _ _ | AddClientProduct _ _ => true
  | _ => false
  end.

Fixpoint loop_den (f : value -> res unit * list op) (items : list value)
  : res unit * list op :=
  match items with
  | [] => (Ok tt, [])
  | x :: r =>
      match f x with
      | (Ok _, o) => let '(res, o') := loop_den f r in (res, o ++ o')
      | (Raise e, o) => (Raise e, o)
      end
  end.

Definition source_den (f : value -> res unit * list op) (src : source)
  : res unit * list op :=
  match src with
  | Unreadable e => (Raise e, [])
  | Stream items fault =>
      match loop_den f items with
      | (Ok _, o) => (match fault with Some e => Raise e | None => Ok tt end, o)
      | (Raise e, o) => (Raise e, o)
      end
  end.

Definition stage_den (s : strategy) (fs : files) (r : refs) : res unit * list op :=
  match source_den (record_den s r) (stage_source s fs) with
  | (Ok _, o) => (Ok tt, o)
  | (Raise e, o) => (Raise (wrapped s e), o)
  end.

(** The first three stages neither read the loader nor depend on it. *)
Definition no_refs : refs := (∅, ∅).

Definition early_den (fs : files) : res unit * list op :=
  let '(r1, o1) := stage_den CategoryLoadStrategy fs no_refs in
  match r1 with
  | Raise e => (Raise e, o1)
  | Ok _ =>
      let '(r2, o2) := stage_den ProductLoadStrategy fs no_refs in
      match r2 with
      | Raise e => (Raise e, o1 ++ o2)
      | Ok _ =>
          let '(r3, o3) := stage_den ContactLoadStrategy fs no_refs in
          (r3, o1 ++ o2 ++ o3)
      end
  end.

(** The outcome of [initialize_data] and the updates it makes, from the
    loader it starts on. *)
Definition init_den (fs : files) (d : DataLoader) : res unit * list op :=
  match early_den fs with
  | (Raise e, o) => (Raise e, o)
  | (Ok _, o) =>
      let '(r4, o4) := stage_den SalesLoadStrategy fs (refs_of (apply_ops o d)) in
      (r4, o ++ o4)
  end.

(** *** Tables written by assignment: the last write wins *)

Definition put_step {V} (g : op -> option (key * V)) (m : gmap key V) (o : op)
  : gmap key V :=
  match g o with
  | Some (k, v) => <[k := v]> m
  | None => m
  end.

Definition puts {V} (g : op -> option (key * V)) (ops : list op) (m : gmap key V)
  : gmap key V :=
  fold_left (put_step g) ops m.

(** The last value written under [k], if any. *)
Fixpoint last_put {V} (g : op -> option (key * V)) (ops : list op) (k : key)
  : option V :=
  match ops with
  | [] => None
  | o :: r =>
      match last_put g r k with
      | Some v => Some v
      | None =>
          match g o with
          | Some (k', v) => if decide (k' = k) then Some v else None
          | None => None
          end
      end
  end.

Definition g_categories (o : op) : option (key * value) :=
  match o with PutCategory k v => Some (k, v) | _ => None end.
Definition g_products (o : op) : option (key * value) :=
  match o with PutProduct k v => Some (k, v) | _ => None end.
Definition g_contacts (o : op) : option (key * value) :=
  match o with PutContact k v => Some (k, v) | _ => None end.
Definition g_category_index (o : op) : option (key * index_entry) :=
  match o with PutCategoryIndex k e => Some (k, e) | _ => None end.
Definition g_product_category (o : op) : option (key * category_ref) :=
  match o with PutProductCategory k c => Some (k, c) | _ => None end.
Definition g_contact_country (o : op) : option (key * country_ref) :=
  match o with PutContactCountry k c => Some (k, c) | _ => None end.

(** *** The country code index: the first write wins *)

Definition code_step (m : gmap key value) (o : op) : gmap key value :=
  match o with
  | PutCountryCode k v => put_if_absent k v m
  | _ => m
  end.

Definition codes (ops : list op) (m : gmap key value) : gmap key value :=
  fold_left code_step ops m.

Fixpoint first_code (ops : list op) (k : key) : option value :=
  match ops with
  | [] => None
  | PutCountryCode k' v :: r => if decide (k' = k) then Some v else first_code r k
  | _ :: r => first_code r k
  end.

(** *** The products of a client: a set *)

Definition member_step (m : gmap key (gset key)) (o : op) : gmap key (gset key) :=
  match o with
  | AddClientProduct ck pk => add_member ck pk m
  | _ => m
  end.

Definition members (ops : list op) (m : gmap key (gset key)) : gmap key (gset key) :=
  fold_left member_step ops m.

Fixpoint added (ops : list op) (ck : key) : option (gset key) :=
  match ops with
  | [] => None
  | AddClientProduct ck' pk :: r =>
      if decide (ck' = ck) then Some ({[pk]} ∪ default ∅ (added r ck))
      else added r ck
  | _ :: r => added r ck
  end.

(** One category, one product in it, one customer, one sale of 3 units. *)
Definition one_sale_files : files :=
  {| categories_json :=
       Stream [VDict [("id", VInt 1); ("name", VStr "Drinks"); ("parent_id", VBool true)]]
              None;
     products_json :=
       Stream [VDict [("id", VInt 10); ("name", VStr "Cola");
                      ("categ_id", VList [VInt 1; VStr "Drinks"])]] None;
     contacts_json :=
       Stream [VDict [("id", VInt 5); ("name", VStr "Bob");
                      ("country_id", VList [VInt 2; VStr "France"])]] None;
     sale_order_lines_json :=
       Stream [VDict [("create_date", VStr "2024-01-01");
                      ("product_id", VList [VInt 10; VStr "Cola"]);
                      ("order_partner_id", VList [VInt 5; VStr "Bob"]);
                      ("product_uom_qty", VStr "3")]] None |}.

(** ** Notions used in the further properties *)

(** The tables of the loader, by the stage that owns them. *)
Definition category_tables (d : DataLoader) :=
  (categories d, category_index d).
Definition product_tables (d : DataLoader) :=
  (products d, product_category_map d).
Definition contact_tables (d : DataLoader) :=
  (contacts d, contact_country_map d, country_code_map d).
Definition aggregates (d : DataLoader) :=
  (category_sales d, category_product_sales d, country_product_sales d,
   client_products d).

(** The stage whose statements make an update. *)
Definition stage_of_op (o : op) : strategy :=
  match o with
  | PutCategory _ _ | PutCategoryIndex _ _ => CategoryLoadStrategy
  | PutProduct _ _ | PutProductCategory _ _ => ProductLoadStrategy
  | PutContact _ _ | PutContactCountry _ _ | PutCountryCode _ _ => ContactLoadStrategy
  | AddCategorySales _ _ | AddCategoryProductSales _ _ _
  | AddCountryProductSales _ _ _ | AddClientProduct _ _ => SalesLoadStrategy
  end.

(** Equality of strategies is decidable. *)
#[global] Instance strategy_eq_dec : EqDecision strategy.
Proof. solve_decision. Defined.

(** The update [o] is made by the stage [s]. *)
Definition made_by (s : strategy) (o : op) : bool := bool_decide (stage_of_op o = s).

(** The dictionary key of a record: its hashed ["id"]. *)
Definition record_key (x : value) : option key :=
  match x with
  | VDict d =>
      match dict_lookup "id" d with
      | Some id => hash_key id
      | None => None
      end
  | _ => None
  end.

(** The last record of a stream stored under the key [k]. *)
Fixpoint last_with_key (items : list value) (k : key) : option value :=
  match items with
  | [] => None
  | x :: r =>
      match last_with_key r k with
      | Some y => Some y
      | None => if decide (record_key x = Some k) then Some x else None
      end
  end.

(** The [(code, name)] pair of a contact whose [country_id] is a list of
    two elements or more. *)
Definition contact_country (x : value) : option (value * value) :=
  match x with
  | VDict d =>
      match default VNone (dict_lookup "country_id" d) with
      | VList (code :: name :: _) => Some (code, name)
      | _ => None
      end
  | _ => None
  end.

(** The code carried by the first contact of a stream whose country name
    is the key [k]. *)
Fixpoint first_country_code (items : list value) (k : key) : option value :=
  match items with
  | [] => None
  | x :: r =>
      match contact_country x with
      | Some (code, name) =>
          if decide (hash_key name = Some k) then Some code
          else first_country_code r k
      | None => first_country_code r k
      end
  end.

(** Two category records with the same id. *)
Definition two_categories_files : files :=
  {| categories_json :=
       Stream [VDict [("id", VInt 1); ("name", VStr "Drinks")];
               VDict [("id", VInt 1); ("name", VStr "Beverages")]] None;
     products_json := no_file; contacts_json := no_file;
     sale_order_lines_json := no_file |}.

(** Two contacts of the same country name, with different codes. *)
Definition two_contacts_files : files :=
  {| categories_json := no_file; products_json := no_file;
     contacts_json :=
       Stream [VDict [("id", VInt 5); ("country_id", VList [VInt 2; VStr "France"])];
               VDict [("id", VInt 6); ("country_id", VList [VInt 33; VStr "France"])]]
              None;
     sale_order_lines_json := no_file |}.

(** A float that is not below zero: zero, positive, or a NaN. *)
Definition not_negative (x : float) : Prop := fltb x fzero = false.

(** No entry of the three tables of totals is below zero. *)
Definition totals_not_negative (d : DataLoader) : Prop :=
  map_Forall (fun _ x => not_negative x) (category_sales d) /\
  map_Forall (fun _ (m : gmap key float) => map_Forall (fun _ x => not_negative x) m)
             (category_product_sales d) /\
  map_Forall (fun _ (m : gmap key float) => map_Forall (fun _ x => not_negative x) m)
             (country_product_sales d).

(** The quantity an update adds is not below zero. *)
Definition adds_not_negative (o : op) : Prop :=
  match o with
  | AddCategorySales _ q | AddCategoryProductSales _ _ q
  | AddCountryProductSales _ _ q => not_negative q
  | _ => True
  end.

(** The category reference derived from a list-shaped [categ_id]. *)
Definition category_ref_of (l : list value) : category_ref :=
  {| cr_id := match l with x :: _ => x | [] => VNone end;
     cr_name := match l with _ :: y :: _ => y | _ => VStr "Unnamed Category" end |}.

(** The update does not touch the totals by category. *)
Definition credits_no_category (o : op) : Prop :=
  match o with
  | AddCategorySales _ _ | AddCategoryProductSales _ _ _ => False
  | _ => True
  end.

(** An update of the totals by country goes under ["Unknown"]. *)
Definition country_is_unknown (o : op) : Prop :=
  match o with
  | AddCountryProductSales cnk _ _ => cnk = KStr "Unknown"
  | _ => True
  end.

(** The "Sales" figure of [log_data_summary]. *)
Definition summary_sales (d : DataLoader) : nat :=
  map_fold (fun _ (v : gmap key float) acc => size v + acc) 0 (country_product_sales d).

(** The category file is read, the product file cannot be opened. *)
Definition missing_products_files : files :=
  {| categories_json := categories_json one_sale_files;
     products_json := Unreadable OSError;
     contacts_json := contacts_json one_sale_files;
     sale_order_lines_json := sale_order_lines_json one_sale_files |}.

(** * Properties *)

(** ** The builtin [float] on sample inputs *)

Example float_3 : py_float (VStr "3") = inr (S754_finite false 6755399441055744 (-51)).
Proof. vm_compute. reflexivity. Qed.
Example float_m7 : option_map py_max0 (float_of_string " -7.0e0 ") = Some fzero.
Proof. vm_compute. reflexivity. Qed.
Example float_tenth : float_of_string "0.1" = Some (S754_finite false 7205759403792794 (-56)).
Proof. vm_compute. reflexivity. Qed.
Example float_bad : float_of_string "1_e5" = None /\ float_of_string "abc" = None
  /\ float_of_string "1_000.5" = float_of_string "1000.5" /\ float_of_string "" = None.
Proof. vm_compute. auto. Qed.

(** ** Field extractors *)

(** [validate_numeric] in closed form: what it returns and what it logs. *)
Lemma validate_numeric_run v dflt w :
  validate_numeric v dflt w =
    match py_float v with
    | inr x => (Ok (py_max0 x), w)
    | inl TypeError | inl ValueError =>
        (Ok dflt, {| loader := loader w; log := log w ++ [Warning_invalid_numeric v] |})
    | inl e => (Raise e, w)
    end.
Proof.
  unfold validate_numeric, try_except, bind, lift.
  destruct (py_float v) as [[]|x]; reflexivity.
Qed.

(** [float] raises nothing but [TypeError], [ValueError] and [OverflowError],
    the last one on integers only. *)
Lemma py_float_raises v e :
  py_float v = inl e ->
  e = TypeError \/ e = ValueError \/
  (e = OverflowError /\ exists z, v = VInt z /\ float_of_int z = None).
Proof.
  destruct v; simpl; try (intros [= <-]; auto); try discriminate.
  - destruct (float_of_int z) eqn:E; intros [= <-]. right; right; eauto.
  - destruct (float_of_string s); intros [= <-]. auto.
Qed.

Lemma validate_numeric_loader v dflt w :
  loader (snd (validate_numeric v dflt w)) = loader w.
Proof.
  rewrite validate_numeric_run.
  destruct (py_float v) as [[]|x]; reflexivity.
Qed.

(** [max(x, 0.0)] is [>= 0.0] for every float but a NaN. *)
Lemma py_max0_nonneg x : x <> S754_nan -> fleb fzero (py_max0 x) = true.
Proof.
  intros Hx. destruct x as [s|s| |s m e]; try congruence; destruct s; reflexivity.
Qed.

(** C5, as amended: [extract_id] returns the first element of every
    non-empty list, the pair form [[id, display_name]] among them, and
    [None] for every other shape: a missing field ([None]), a scalar, the
    empty list, an object. It is a total function: no input raises. *)
Theorem extract_id_shapes :
  (forall a b, extract_id (VList [a; b]) = a) /\
  (forall x r, extract_id (VList (x :: r)) = x) /\
  extract_id (VList []) = VNone /\
  extract_id VNone = VNone /\
  (forall b, extract_id (VBool b) = VNone) /\
  (forall z, extract_id (VInt z) = VNone) /\
  (forall s m e, extract_id (VDec s m e) = VNone) /\
  (forall s, extract_id (VStr s) = VNone) /\
  (forall d, extract_id (VDict d) = VNone) /\
  (forall v, (exists x r, v = VList (x :: r)) \/ extract_id v = VNone).
Proof.
  repeat split; try reflexivity.
  intros [ | | | | | [|x r] | ]; eauto.
Qed.

(** C5 as stated fails: a one-element list is not the pair form, and
    [extract_id] still returns its element instead of [None]. *)
Lemma extract_id_singleton_not_absent :
  ~ (forall v, (forall a b, v <> VList [a; b]) -> extract_id v = VNone).
Proof.
  intros H. specialize (H (VList [VInt 7])).
  simpl in H. discriminate H. intros a b [=].
Qed.

(** C6 at the failing input: an integer beyond the float range makes
    [float] raise [OverflowError], which the handler of [validate_numeric]
    does not catch; and the text ["nan"] is coerced to a NaN, which
    [max(_, 0.0)] returns as it is, a result that is not [>= 0.0]. *)
Theorem validate_numeric_overflow_escapes :
  (forall dflt w,
     validate_numeric (VInt (2 ^ 1024)) dflt w = (Raise OverflowError, w)) /\
  (forall dflt w,
     validate_numeric (VStr "nan") dflt w = (Ok S754_nan, w)) /\
  fleb fzero S754_nan = false.
Proof.
  split; [|split].
  - intros. rewrite validate_numeric_run.
    replace (py_float (VInt (2 ^ 1024))) with (@inl exn float OverflowError)
      by (vm_compute; reflexivity).
    reflexivity.
  - intros. rewrite validate_numeric_run.
    replace (py_float (VStr "nan")) with (@inr exn float S754_nan)
      by (vm_compute; reflexivity).
    reflexivity.
  - reflexivity.
Qed.

(** ** Category records *)

Lemma process_category_run d id k name w :
  dict_lookup "id" d = Some id -> hash_key id = Some k ->
  dict_lookup "name" d = Some name ->
  _process_category (VDict d) w =
    (Ok tt,
     {| loader :=
          set_category_index
            (insert k {| ie_name := name;
                         ie_parent := parent_name_of
                                        (default VNone (dict_lookup "parent_id" d)) |})
            (set_categories (insert k (VDict d)) (loader w));
        log := log w |}).
Proof.
  intros Hid Hk Hname.
  unfold _process_category, bind, py_get, py_getitem, py_hash, modify, ret.
  rewrite Hid, Hk, Hname. reflexivity.
Qed.

(** A category record gets through exactly when it is an object with a
    hashable ["id"] and a ["name"]. *)
Lemma process_category_ok_inv c w :
  fst (_process_category c w) = Ok tt ->
  exists d id k name,
    c = VDict d /\ dict_lookup "id" d = Some id /\ hash_key id = Some k /\
    dict_lookup "name" d = Some name.
Proof.
  unfold _process_category, bind, py_get, py_getitem, py_hash, modify, ret, raise.
  destruct c; simpl; try discriminate.
  destruct (dict_lookup "id" d) as [id|] eqn:Hid; simpl; try discriminate.
  destruct (hash_key id) as [k|] eqn:Hk; simpl; try discriminate.
  destruct (dict_lookup "name" d) as [name|] eqn:Hname; simpl; try discriminate.
  intros _. exists d, id, k, name. auto.
Qed.

Lemma parent_name_of_true v :
  parent_name_of v = Some "No Parent" <-> v = VBool true.
Proof.
  split; [|intros ->; reflexivity].
  destruct v as [ |[]| | | | | ]; simpl; intros H; try discriminate; reflexivity.
Qed.

Lemma parent_name_of_other v :
  v <> VBool true -> parent_name_of v = None.
Proof.
  destruct v as [ |[]| | | | | ]; simpl; intros H; try reflexivity.
  exfalso. apply H. reflexivity.
Qed.

(** C4: a category record that enters the index (an object with a hashable
    id and a name) is indexed with parent ["No Parent"] exactly when its raw
    [parent_id] is the boolean [true]; for every other [parent_id] (absent,
    [false], a scalar, a list, an object) the indexed parent is absent. *)
Theorem category_parent_rule d id k name w :
  dict_lookup "id" d = Some id -> hash_key id = Some k ->
  dict_lookup "name" d = Some name ->
  fst (_process_category (VDict d) w) = Ok tt /\
  exists entry,
    category_index (loader (snd (_process_category (VDict d) w))) !! k = Some entry /\
    ie_name entry = name /\
    (ie_parent entry = Some "No Parent" <->
       dict_lookup "parent_id" d = Some (VBool true)) /\
    (dict_lookup "parent_id" d <> Some (VBool true) -> ie_parent entry = None).
Proof.
  intros Hid Hk Hname.
  rewrite (process_category_run d id k name w Hid Hk Hname). simpl.
  split; [reflexivity|].
  eexists. split; [apply lookup_insert_eq|]. simpl.
  split; [reflexivity|]. split.
  - rewrite parent_name_of_true.
    destruct (dict_lookup "parent_id" d); simpl; split; congruence.
  - intros H. apply parent_name_of_other.
    destruct (dict_lookup "parent_id" d); simpl; congruence.
Qed.

Lemma category_parent_rule_witness :
  let d := [("id", VInt 1); ("name", VStr "Drinks"); ("parent_id", VBool true)] in
  fst (_process_category (VDict d) world_init) = Ok tt /\
  exists entry,
    category_index (loader (snd (_process_category (VDict d) world_init)))
      !! KNum (Q2Qc (inject_Z 1)) = Some entry /\
    ie_name entry = VStr "Drinks" /\
    (ie_parent entry = Some "No Parent" <->
       dict_lookup "parent_id" d = Some (VBool true)) /\
    (dict_lookup "parent_id" d <> Some (VBool true) -> ie_parent entry = None).
Proof.
  intros d.
  apply (category_parent_rule d (VInt 1) (KNum (Q2Qc (inject_Z 1))) (VStr "Drinks"));
    reflexivity.
Defined.

(** ** Sale records: the period filter *)

(** C3: a sale record whose [create_date] is not a string starting with
    ["2024"] (absent, another string, or not a string at all) leaves the
    whole loader and the log as they were and is not counted, whatever its
    other fields are. *)
Theorem process_sale_out_of_period sale w :
  starts_2024 sale = false ->
  snd (_process_sale sale w) = w /\ fst (_process_sale sale w) <> Ok true.
Proof.
  intros H.
  unfold _process_sale, bind, py_get, py_startswith, ret, raise.
  destruct sale; simpl in *; try (split; [reflexivity|discriminate]).
  destruct (dict_lookup "create_date" d) as [[]|]; simpl in *;
    try (split; [reflexivity|discriminate]).
  rewrite H. simpl. split; [reflexivity|discriminate].
Qed.

Lemma process_sale_out_of_period_witness :
  let sale := VDict [("create_date", VStr "2023-12-31");
                     ("product_id", VList [VInt 10; VStr "Cola"]);
                     ("product_uom_qty", VInt 4)] in
  snd (_process_sale sale world_init) = world_init /\
  fst (_process_sale sale world_init) <> Ok true.
Proof.
  intros sale. apply (process_sale_out_of_period sale world_init). reflexivity.
Defined.

(** ** Contact records and the country code index *)

Lemma for_each_invariant {A} (P : world -> Prop) (body : A -> M unit) l :
  (forall x w, P w -> P (snd (body x w))) ->
  forall w, P w -> P (snd (for_each body l w)).
Proof.
  intros Hbody. induction l as [|x r IH]; intros w Hw; simpl; [exact Hw|].
  unfold bind. specialize (Hbody x w Hw).
  destruct (body x w) as [[[]|e] w1]; simpl in *; auto.
Qed.

Lemma process_contact_country_code contact w k c :
  country_code_map (loader w) !! k = Some c ->
  country_code_map (loader (snd (_process_contact contact w))) !! k = Some c.
Proof.
  intros H.
  unfold _process_contact, bind, py_get, py_getitem, py_hash, modify, read,
    logger, ret, raise.
  destruct contact; simpl; try exact H.
  destruct (dict_lookup "id" d) as [id|]; simpl; try exact H.
  destruct (hash_key id) as [ik|]; simpl; try exact H.
  destruct (default VNone (dict_lookup "country_id" d)) as [ | | | | |l| ];
    simpl; try exact H.
  destruct l as [|code [|name rest]]; simpl; try exact H.
  destruct (hash_key name) as [nk|]; simpl; try exact H.
  destruct (country_code_map (loader w) !! nk) as [old|] eqn:Hold; simpl.
  - destruct (negb (py_eq old code)); simpl; exact H.
  - rewrite lookup_insert_ne; [exact H|]. intros ->. congruence.
Qed.

Lemma load_contacts_country_code fs w k c :
  country_code_map (loader w) !! k = Some c ->
  country_code_map (loader (snd (ContactLoadStrategy.load fs w))) !! k = Some c.
Proof.
  intros H.
  unfold ContactLoadStrategy.load, try_except, for_items, end_of_stream.
  destruct (contacts_json fs) as [e|items fault].
  - unfold bind, raise, logger. simpl. exact H.
  - pose proof (for_each_invariant
      (fun w => country_code_map (loader w) !! k = Some c) _process_contact items
      (fun x w Hw => process_contact_country_code x w k c Hw) w H) as Hl.
    unfold bind at 1 2.
    destruct (for_each _process_contact items w) as [[[]|e] w1]; simpl in *.
    + destruct fault; simpl; exact Hl.
    + exact Hl.
Qed.

(** A contact that carries another code for a country name already in the
    index: the conflict is logged and the index is left as it is. *)
Lemma process_contact_conflict d id ik code name rest k c w :
  dict_lookup "id" d = Some id -> hash_key id = Some ik ->
  dict_lookup "country_id" d = Some (VList (code :: name :: rest)) ->
  hash_key name = Some k ->
  country_code_map (loader w) !! k = Some c ->
  py_eq c code = false ->
  fst (_process_contact (VDict d) w) = Ok tt /\
  log (snd (_process_contact (VDict d) w)) =
    log w ++ [Warning_country_conflict name c code] /\
  country_code_map (loader (snd (_process_contact (VDict d) w))) =
    country_code_map (loader w).
Proof.
  intros Hid Hik Hc Hk Hold Hne.
  unfold _process_contact, bind, py_get, py_getitem, py_hash, modify, read,
    logger, ret, raise.
  rewrite Hid, Hik, Hc. simpl. rewrite Hk. simpl. rewrite Hold, Hne. simpl.
  auto.
Qed.

(** C7: first seen wins. A code stored in the country code index for a
    country name stays there, unchanged, through the processing of any
    contact record, of any sequence of contact records and of the whole
    contact stage; a later contact with a different code for that name is
    logged as a conflict and not stored. *)
Theorem country_code_first_seen_wins w k c :
  country_code_map (loader w) !! k = Some c ->
  (forall contact,
     country_code_map (loader (snd (_process_contact contact w))) !! k = Some c) /\
  (forall contacts,
     country_code_map (loader (snd (for_each _process_contact contacts w))) !! k
       = Some c) /\
  (forall fs,
     country_code_map (loader (snd (ContactLoadStrategy.load fs w))) !! k = Some c) /\
  (forall d id ik code name rest,
     dict_lookup "id" d = Some id -> hash_key id = Some ik ->
     dict_lookup "country_id" d = Some (VList (code :: name :: rest)) ->
     hash_key name = Some k ->
     py_eq c code = false ->
     fst (_process_contact (VDict d) w) = Ok tt /\
     log (snd (_process_contact (VDict d) w)) =
       log w ++ [Warning_country_conflict name c code] /\
     country_code_map (loader (snd (_process_contact (VDict d) w))) =
       country_code_map (loader w)).
Proof.
  intros H. repeat split.
  - intros contact. apply process_contact_country_code, H.
  - intros contacts.
    apply (for_each_invariant
             (fun w => country_code_map (loader w) !! k = Some c)); [|exact H].
    intros x w0. apply process_contact_country_code.
  - intros fs. apply load_contacts_country_code, H.
  - eapply process_contact_conflict; eauto.
  - eapply process_contact_conflict; eauto.
  - eapply process_contact_conflict; eauto.
Qed.

Lemma country_code_first_seen_wins_witness :
  let first := VDict [("id", VInt 5); ("country_id", VList [VInt 2; VStr "France"])] in
  let later := VDict [("id", VInt 6); ("country_id", VList [VInt 33; VStr "France"])] in
  let w := snd (_process_contact first world_init) in
  country_code_map (loader (snd (_process_contact later w))) !! KStr "France"
    = Some (VInt 2).
Proof.
  intros first later w.
  apply (proj1 (country_code_first_seen_wins w (KStr "France") (VInt 2)
                  ltac:(vm_compute; reflexivity))).
Defined.

(** ** Sale records: the aggregates *)

Lemma process_sale_run d w pk ck cnk cat q wq :
  starts_2024 (VDict d) = true ->
  truthy (sale_product_id (VDict d)) = true ->
  hash_key (sale_product_id (VDict d)) = Some pk ->
  hash_key (sale_customer_id (VDict d)) = Some ck ->
  validate_numeric (sale_quantity (VDict d)) fzero w = (Ok q, wq) ->
  hash_key (country_name_of (loader w) ck) = Some cnk ->
  category_key_of (category_id_of (loader w) pk) = Some cat ->
  _process_sale (VDict d) w =
    (Ok true,
     {| loader := sale_effect pk ck cnk cat q
                    (truthy (sale_customer_id (VDict d))) (loader w);
        log := log wq |}).
Proof.
  intros Hdate Htruthy Hpk Hck Hq Hcnk Hcat.
  assert (Hl : loader wq = loader w).
  { pose proof (validate_numeric_loader (sale_quantity (VDict d)) fzero w) as E.
    rewrite Hq in E. exact E. }
  unfold sale_product_id, sale_customer_id, sale_quantity, sale_field in *.
  simpl in Hdate.
  destruct (dict_lookup "create_date" d) as [[]|] eqn:Hd; try discriminate.
  unfold country_name_of, category_id_of, category_key_of in *.
  unfold _process_sale, bind, py_get, py_startswith, py_hash, read, modify, ret.
  rewrite Hd. cbv beta iota delta [default from_option id negb] in *.
  rewrite Hdate. cbv beta iota.
  rewrite Htruthy. cbv beta iota. rewrite Hq, Hck, Hpk, Hl, Hcnk.
  unfold sale_effect.
  destruct (truthy match product_category_map (loader w) !! pk with
                   | Some c => cr_id c | None => VNone end).
  - destruct (hash_key match product_category_map (loader w) !! pk with
                       | Some c => cr_id c | None => VNone end) as [cik|];
      simpl in Hcat; [|discriminate].
    injection Hcat as <-.
    match goal with |- context [if truthy ?x then _ else _] =>
      destruct (truthy x) end; cbn; rewrite ?Hl; reflexivity.
  - injection Hcat as <-.
    match goal with |- context [if truthy ?x then _ else _] =>
      destruct (truthy x) end; cbn; rewrite ?Hl; reflexivity.
Qed.

(** A record is counted only under the conditions of [process_sale_run]. *)
Lemma process_sale_counted_inv sale w :
  fst (_process_sale sale w) = Ok true ->
  exists d pk ck cnk cat q wq,
    sale = VDict d /\
    starts_2024 sale = true /\
    truthy (sale_product_id sale) = true /\
    hash_key (sale_product_id sale) = Some pk /\
    hash_key (sale_customer_id sale) = Some ck /\
    validate_numeric (sale_quantity sale) fzero w = (Ok q, wq) /\
    hash_key (country_name_of (loader w) ck) = Some cnk /\
    category_key_of (category_id_of (loader w) pk) = Some cat.
Proof.
  unfold _process_sale, bind, py_get, py_startswith, py_hash, read, modify, ret, raise.
  destruct sale; simpl; try discriminate.
  unfold sale_product_id, sale_customer_id, sale_quantity, sale_field,
    country_name_of, category_id_of, category_key_of.
  destruct (dict_lookup "create_date" d) as [[]|] eqn:Hd; simpl; try discriminate.
  destruct (String.prefix "2024" s) eqn:Hp; simpl; try discriminate.
  destruct (truthy (extract_id (default VNone (dict_lookup "product_id" d)))) eqn:Ht;
    simpl; try discriminate.
  pose proof (validate_numeric_loader
                (default (VInt 0) (dict_lookup "product_uom_qty" d)) fzero w) as Hl.
  destruct (validate_numeric (default (VInt 0) (dict_lookup "product_uom_qty" d)) fzero w)
    as [[q|e] wq] eqn:Hq; simpl in Hl; simpl; try discriminate.
  destruct (hash_key (extract_id (default VNone (dict_lookup "order_partner_id" d))))
    as [ck|] eqn:Hck; simpl; try discriminate.
  destruct (hash_key (extract_id (default VNone (dict_lookup "product_id" d))))
    as [pk|] eqn:Hpk; simpl; try discriminate.
  rewrite Hl.
  destruct (truthy match product_category_map (loader w) !! pk with
                   | Some c => cr_id c | None => VNone end) eqn:Htc; simpl.
  - destruct (hash_key match product_category_map (loader w) !! pk with
                       | Some c => cr_id c | None => VNone end) as [cik|] eqn:Hcik;
      simpl; try discriminate.
    destruct (hash_key match contact_country_map (loader w) !! ck with
                       | Some c => co_name c | None => VStr "Unknown" end) as [cnk|]
      eqn:Hcnk; simpl; try discriminate.
    intros _. exists d, pk, ck, cnk, (Some cik), q, wq. repeat split; auto.
    rewrite Htc, Hcik. reflexivity.
  - destruct (hash_key match contact_country_map (loader w) !! ck with
                       | Some c => co_name c | None => VStr "Unknown" end) as [cnk|]
      eqn:Hcnk; simpl; try discriminate.
    intros _. exists d, pk, ck, cnk, None, q, wq. repeat split; auto.
    rewrite Htc. reflexivity.
Qed.

Lemma sales_at_add_float2_eq k1 k2 q m :
  sales_at (add_float2 k1 k2 q m) k1 k2 = fadd (sales_at m k1 k2) q.
Proof.
  unfold sales_at, add_float2, add_float.
  rewrite lookup_insert_eq. simpl. rewrite lookup_insert_eq. reflexivity.
Qed.

Lemma sales_at_add_float2_ne k1 k2 q m j1 j2 :
  (j1, j2) <> (k1, k2) ->
  sales_at (add_float2 k1 k2 q m) j1 j2 = sales_at m j1 j2.
Proof.
  intros Hne. unfold sales_at, add_float2, add_float.
  destruct (decide (k1 = j1)) as [->|H1].
  - rewrite lookup_insert_eq. simpl.
    rewrite lookup_insert_ne; [reflexivity|]. intros ->. apply Hne. reflexivity.
  - rewrite lookup_insert_ne by exact H1. reflexivity.
Qed.

Lemma sale_effect_country_product_sales pk ck cnk cat q b d :
  country_product_sales (sale_effect pk ck cnk cat q b d) =
    add_float2 cnk pk q (country_product_sales d).
Proof. unfold sale_effect. destruct cat, b; reflexivity. Qed.

(** C2, as amended: a sale record that passes the period filter, has a
    truthy and hashable product id and is processed without an exception
    (hashable customer id, country name and category id, and
    [validate_numeric] returns a quantity [q]) is counted, and adds exactly
    [q] to [country_product_sales[country][product]] (from [0.0] when the
    entry is new), leaving every other entry of that aggregate as it was;
    this holds whether the category resolves ([cat = Some _]) or not
    ([cat = None]), with or without a customer, and with the country
    ["Unknown"] when the customer has none. *)
Theorem country_sales_increase d w pk ck cnk cat q wq :
  starts_2024 (VDict d) = true ->
  truthy (sale_product_id (VDict d)) = true ->
  hash_key (sale_product_id (VDict d)) = Some pk ->
  hash_key (sale_customer_id (VDict d)) = Some ck ->
  validate_numeric (sale_quantity (VDict d)) fzero w = (Ok q, wq) ->
  hash_key (country_name_of (loader w) ck) = Some cnk ->
  category_key_of (category_id_of (loader w) pk) = Some cat ->
  fst (_process_sale (VDict d) w) = Ok true /\
  sales_at (country_product_sales (loader (snd (_process_sale (VDict d) w)))) cnk pk
    = fadd (sales_at (country_product_sales (loader w)) cnk pk) q /\
  (forall j1 j2, (j1, j2) <> (cnk, pk) ->
     sales_at (country_product_sales (loader (snd (_process_sale (VDict d) w)))) j1 j2
       = sales_at (country_product_sales (loader w)) j1 j2).
Proof.
  intros H1 H2 H3 H4 H5 H6 H7.
  rewrite (process_sale_run d w pk ck cnk cat q wq H1 H2 H3 H4 H5 H6 H7).
  cbn [fst snd loader]. rewrite sale_effect_country_product_sales.
  split; [reflexivity|]. split.
  - apply sales_at_add_float2_eq.
  - intros j1 j2 Hne. apply sales_at_add_float2_ne, Hne.
Qed.

Lemma country_sales_increase_witness :
  let d := [("create_date", VStr "2024-01-01");
            ("product_id", VList [VInt 10; VStr "Cola"]);
            ("product_uom_qty", VStr "3")] in
  fst (_process_sale (VDict d) world_init) = Ok true /\
  sales_at (country_product_sales (loader (snd (_process_sale (VDict d) world_init))))
    (KStr "Unknown") (key_of_int 10)
    = fadd (sales_at (country_product_sales (loader world_init))
                     (KStr "Unknown") (key_of_int 10)) f_three /\
  (forall j1 j2, (j1, j2) <> (KStr "Unknown", key_of_int 10) ->
     sales_at (country_product_sales (loader (snd (_process_sale (VDict d) world_init))))
       j1 j2
       = sales_at (country_product_sales (loader world_init)) j1 j2).
Proof.
  intros d.
  apply (country_sales_increase d world_init (key_of_int 10) KNone (KStr "Unknown")
           None f_three world_init); vm_compute; reflexivity.
Defined.

(** C2 as stated fails: a record in the period with a resolvable product id
    and a valid quantity [3], whose customer reference holds an unhashable
    id ([[[5], "Bob"]]), raises [TypeError] at the country lookup, before
    any aggregate is touched; no entry of [country_product_sales] grows. *)
Lemma country_sales_suppressed_by_exception :
  ~ (forall sale w pk q,
       starts_2024 sale = true ->
       truthy (sale_product_id sale) = true ->
       hash_key (sale_product_id sale) = Some pk ->
       fst (validate_numeric (sale_quantity sale) fzero w) = Ok q ->
       exists cnk,
         sales_at (country_product_sales (loader (snd (_process_sale sale w)))) cnk pk
           = fadd (sales_at (country_product_sales (loader w)) cnk pk) q).
Proof.
  intros H.
  destruct (H (VDict [("create_date", VStr "2024-01-01");
                      ("product_id", VList [VInt 10; VStr "Cola"]);
                      ("order_partner_id", VList [VList [VInt 5]; VStr "Bob"]);
                      ("product_uom_qty", VInt 3)])
              world_init (key_of_int 10) f_three) as [cnk Hc];
    try (vm_compute; reflexivity).
  replace (_process_sale _ world_init) with (@Raise bool TypeError, world_init) in Hc
    by (vm_compute; reflexivity).
  unfold sales_at in Hc. simpl in Hc. rewrite lookup_empty in Hc.
  simpl in Hc. rewrite lookup_empty in Hc. simpl in Hc.
  vm_compute in Hc. discriminate Hc.
Qed.

Lemma process_sale_falsy_product sale w :
  truthy (sale_product_id sale) = false ->
  snd (_process_sale sale w) = w /\ fst (_process_sale sale w) <> Ok true.
Proof.
  intros H.
  unfold _process_sale, bind, py_get, py_startswith, ret, raise.
  destruct sale; simpl in *; try (split; [reflexivity|discriminate]).
  unfold sale_product_id, sale_field in H.
  destruct (default (VStr "") (dict_lookup "create_date" d));
    simpl; try (split; [reflexivity|discriminate]).
  destruct (String.prefix "2024" s); simpl; try (split; [reflexivity|discriminate]).
  rewrite H. simpl. split; [reflexivity|discriminate].
Qed.






(** ** The load strategies: what gets out of a stage *)

(** The counting loop of the sales stage is the plain loop, the count
    forgotten. *)
Lemma count_sales_for_each items n w :
  forget (count_sales items n w) = for_each (transform SalesLoadStrategy) items w.
Proof.
  revert n w. induction items as [|sale r IH]; intros n w; [reflexivity|].
  simpl. unfold bind, ret.
  destruct (_process_sale sale w) as [[ok|e] w1]; simpl; [apply IH|reflexivity].
Qed.

(** Every strategy is its [try] block under one handler that wraps whatever
    was raised. *)
Lemma load_try s fs w :
  load s fs w =
    match stage_body s fs w with
    | (Ok x, w') => (Ok x, w')
    | (Raise e, w') =>
        (Raise (DataLoaderException (failure_prefix s) e 500),
         {| loader := loader w'; log := log w' ++ [Error_stage (error_prefix s) e] |})
    end.
Proof.
  destruct s; try reflexivity.
  unfold load, SalesLoadStrategy.load, stage_body, try_except, for_items, stage_source.
  destruct (sale_order_lines_json fs) as [e|items fault]; [reflexivity|].
  pose proof (count_sales_for_each items 0 w) as E.
  unfold bind. rewrite <- E.
  destruct (count_sales items 0 w) as [[n|e] w1]; reflexivity.
Qed.

Lemma for_each_app {A} (body : A -> M unit) l1 l2 w :
  for_each body (l1 ++ l2) w = (for_each body l1 >> for_each body l2) w.
Proof.
  revert w. induction l1 as [|x r IH]; intros w; simpl.
  - reflexivity.
  - unfold bind in *. destruct (body x w) as [[[]|e] w1]; [|reflexivity].
    apply IH.
Qed.

(** The first record whose transform raises ends the loop with that
    exception. *)
Lemma for_each_raise {A} (body : A -> M unit) before x after w w1 e w2 :
  for_each body before w = (Ok tt, w1) ->
  body x w1 = (Raise e, w2) ->
  for_each body (before ++ x :: after) w = (Raise e, w2).
Proof.
  intros Hb Hx. rewrite for_each_app. unfold bind. rewrite Hb. simpl.
  unfold bind. rewrite Hx. reflexivity.
Qed.

Lemma load_raises_wrapped s fs w e :
  fst (load s fs w) = Raise e -> exists cause, e = wrapped s cause.
Proof.
  rewrite load_try. destruct (stage_body s fs w) as [[x|e0] w']; simpl.
  - discriminate.
  - intros [= <-]. exists e0. reflexivity.
Qed.

(** C9, as amended: the [try] block of every load strategy encloses the
    whole record loop and its handler catches every exception. So a stage
    lets out nothing but its typed error: an exception raised by the
    transform of one record is wrapped exactly as a stream-level failure
    (unreadable file, invalid JSON) is, into
    [DataLoaderException(prefix + str(cause), 500)], and aborts the stage. *)
Theorem load_wraps_every_exception s fs w :
  (forall e, fst (load s fs w) = Raise e -> exists cause, e = wrapped s cause) /\
  (forall before x after fault w1 e w2,
     stage_source s fs = Stream (before ++ x :: after) fault ->
     for_each (transform s) before w = (Ok tt, w1) ->
     transform s x w1 = (Raise e, w2) ->
     fst (load s fs w) = Raise (wrapped s e) /\
     loader (snd (load s fs w)) = loader w2) /\
  (forall items e w1,
     stage_source s fs = Stream items (Some e) ->
     for_each (transform s) items w = (Ok tt, w1) ->
     fst (load s fs w) = Raise (wrapped s e)) /\
  (forall e,
     stage_source s fs = Unreadable e ->
     fst (load s fs w) = Raise (wrapped s e)).
Proof.
  split; [|split; [|split]].
  - intros e. apply load_raises_wrapped.
  - intros before x after fault w1 e w2 Hsrc Hb Hx.
    assert (E : stage_body s fs w = (Raise e, w2)).
    { unfold stage_body, for_items. rewrite Hsrc. unfold bind.
      rewrite (for_each_raise _ before x after w w1 e w2 Hb Hx). reflexivity. }
    rewrite load_try, E. split; reflexivity.
  - intros items e w1 Hsrc Hb.
    rewrite load_try. unfold stage_body, for_items. rewrite Hsrc.
    unfold bind. rewrite Hb. reflexivity.
  - intros e Hsrc.
    rewrite load_try. unfold stage_body, for_items. rewrite Hsrc. reflexivity.
Qed.

Lemma load_wraps_every_exception_witness :
  let fs := {| categories_json := no_file; products_json := no_file;
               contacts_json := no_file;
               sale_order_lines_json :=
                 Stream [VDict [("create_date", VInt 2024)]] None |} in
  fst (load SalesLoadStrategy fs world_init)
    = Raise (wrapped SalesLoadStrategy AttributeError) /\
  loader (snd (load SalesLoadStrategy fs world_init)) = loader world_init.
Proof.
  intros fs.
  apply (proj1 (proj2 (load_wraps_every_exception SalesLoadStrategy fs world_init))
           [] (VDict [("create_date", VInt 2024)]) [] None world_init
           AttributeError world_init); reflexivity.
Defined.

(** C9 as stated fails: the [AttributeError] raised on a sale record whose
    [create_date] is the number [2024] does not leave the sales stage as it
    is; the stage raises its [DataLoaderException] instead. *)
Lemma record_exception_is_wrapped :
  ~ (forall fs w sale e,
       sale_order_lines_json fs = Stream [sale] None ->
       fst (_process_sale sale w) = Raise e ->
       fst (load SalesLoadStrategy fs w) = Raise e).
Proof.
  intros H.
  specialize (H {| categories_json := no_file; products_json := no_file;
                   contacts_json := no_file;
                   sale_order_lines_json :=
                     Stream [VDict [("create_date", VInt 2024)]] None |}
                world_init (VDict [("create_date", VInt 2024)]) AttributeError
                eq_refl eq_refl).
  vm_compute in H. discriminate H.
Qed.

(** ** The orchestrator: stage order and failure *)

Lemma guarded_load s data_type fs w :
  get_loader data_type = inl s ->
  try_except (load_data fs data_type)
    (fun e => if is_DataLoaderException e
              then logger (Error_failed_to_load data_type e) >> raise e
              else raise e) w =
  match load s fs w with
  | (Ok x, w') => (Ok x, w')
  | (Raise e, w') => failed data_type e w'
  end.
Proof.
  intros Hs. unfold try_except, load_data. rewrite Hs.
  pose proof (load_raises_wrapped s fs w) as Hw.
  destruct (load s fs w) as [[x|e] w']; [reflexivity|].
  destruct (Hw e eq_refl) as [cause ->]. reflexivity.
Qed.

Lemma initialize_data_unfold fs w :
  initialize_data fs w =
    match load CategoryLoadStrategy fs (starting w) with
    | (Raise e, w1) => failed "categories" e w1
    | (Ok _, w1) =>
        match load ProductLoadStrategy fs w1 with
        | (Raise e, w2) => failed "products" e w2
        | (Ok _, w2) =>
            match load ContactLoadStrategy fs w2 with
            | (Raise e, w3) => failed "contacts" e w3
            | (Ok _, w3) =>
                match load SalesLoadStrategy fs w3 with
                | (Raise e, w4) => failed "sales" e w4
                | (Ok _, w4) => log_data_summary w4
                end
            end
        end
    end.
Proof.
  unfold initialize_data. unfold bind at 1 2. unfold logger at 1.
  fold (starting w). cbn [for_each]. unfold bind at 1 2.
  rewrite (guarded_load CategoryLoadStrategy) by reflexivity.
  destruct (load CategoryLoadStrategy fs (starting w)) as [[[]|e1] w1]; [|reflexivity].
  unfold bind at 1 2.
  rewrite (guarded_load ProductLoadStrategy) by reflexivity.
  destruct (load ProductLoadStrategy fs w1) as [[[]|e2] w2]; [|reflexivity].
  unfold bind at 1 2.
  rewrite (guarded_load ContactLoadStrategy) by reflexivity.
  destruct (load ContactLoadStrategy fs w2) as [[[]|e3] w3]; [|reflexivity].
  unfold bind at 1 2.
  rewrite (guarded_load SalesLoadStrategy) by reflexivity.
  destruct (load SalesLoadStrategy fs w3) as [[[]|e4] w4]; reflexivity.
Qed.

(** C8: [initialize_data] fires the four strategies in the order
    categories, products, contacts, sales, each on the world the previous
    one left. The first stage that raises ends the initialization: its
    [DataLoaderException] is logged and raised again, from the world that
    stage left, and no later stage is run. The initialization succeeds only
    when all four stages did; there is no success with a stage skipped. *)
Theorem initialize_data_stage_order fs w :
  initialize_data fs w =
    match load CategoryLoadStrategy fs (starting w) with
    | (Raise e, w1) => failed "categories" e w1
    | (Ok _, w1) =>
        match load ProductLoadStrategy fs w1 with
        | (Raise e, w2) => failed "products" e w2
        | (Ok _, w2) =>
            match load ContactLoadStrategy fs w2 with
            | (Raise e, w3) => failed "contacts" e w3
            | (Ok _, w3) =>
                match load SalesLoadStrategy fs w3 with
                | (Raise e, w4) => failed "sales" e w4
                | (Ok _, w4) => log_data_summary w4
                end
            end
        end
    end /\
  (fst (initialize_data fs w) = Ok tt <->
   exists w1 w2 w3 w4,
     load CategoryLoadStrategy fs (starting w) = (Ok tt, w1) /\
     load ProductLoadStrategy fs w1 = (Ok tt, w2) /\
     load ContactLoadStrategy fs w2 = (Ok tt, w3) /\
     load SalesLoadStrategy fs w3 = (Ok tt, w4)) /\
  (forall e, fst (initialize_data fs w) = Raise e ->
     exists s cause, e = wrapped s cause).
Proof.
  split; [apply initialize_data_unfold|].
  rewrite initialize_data_unfold.
  pose proof (load_raises_wrapped CategoryLoadStrategy fs (starting w)) as R1.
  destruct (load CategoryLoadStrategy fs (starting w)) as [[[]|e1] w1].
  2:{ split.
      - split; [discriminate|]. intros (?&?&?&?&[=]&_).
      - simpl. intros e [= <-]. exists CategoryLoadStrategy. apply R1. reflexivity. }
  pose proof (load_raises_wrapped ProductLoadStrategy fs w1) as R2.
  destruct (load ProductLoadStrategy fs w1) as [[[]|e2] w2] eqn:E2.
  2:{ split.
      - split; [discriminate|]. intros (?&?&?&?&[= <-]&H&_). congruence.
      - simpl. intros e [= <-]. exists ProductLoadStrategy. apply R2. reflexivity. }
  pose proof (load_raises_wrapped ContactLoadStrategy fs w2) as R3.
  destruct (load ContactLoadStrategy fs w2) as [[[]|e3] w3] eqn:E3.
  2:{ split.
      - split; [discriminate|]. intros (?&?&?&?&[= <-]&H&H'&_).
        rewrite E2 in H. injection H as <-. congruence.
      - simpl. intros e [= <-]. exists ContactLoadStrategy. apply R3. reflexivity. }
  pose proof (load_raises_wrapped SalesLoadStrategy fs w3) as R4.
  destruct (load SalesLoadStrategy fs w3) as [[[]|e4] w4] eqn:E4.
  2:{ split.
      - split; [discriminate|]. intros (?&?&?&?&[= <-]&H&H'&H''). 
        rewrite E2 in H. injection H as <-.
        rewrite E3 in H'. injection H' as <-. congruence.
      - simpl. intros e [= <-]. exists SalesLoadStrategy. apply R4. reflexivity. }
  split.
  - split; [|reflexivity]. intros _. exists w1, w2, w3, w4. auto.
  - simpl. discriminate.
Qed.

Lemma initialize_data_stage_order_witness :
  let fs := {| categories_json := no_file; products_json := Unreadable OSError;
               contacts_json := no_file;
               sale_order_lines_json := no_file |} in
  exists s cause,
    DataLoaderException "Product loading failed: " OSError 500 = wrapped s cause.
Proof.
  intros fs.
  apply (proj2 (proj2 (initialize_data_stage_order fs world_init))).
  reflexivity.
Defined.

(** ** A second initialization *)

(** *** The updates of a run *)

Lemma category_den_ok c w :
  fst (_process_category c w) = fst (category_den c) /\
  loader (snd (_process_category c w)) = apply_ops (snd (category_den c)) (loader w).
Proof.
  unfold _process_category, category_den, bind, py_get, py_getitem, py_hash,
    modify, ret, raise.
  destruct c; simpl; try (split; reflexivity).
  destruct (dict_lookup "id" d) as [id|]; simpl; try (split; reflexivity).
  destruct (hash_key id) as [k|]; simpl; try (split; reflexivity).
  destruct (dict_lookup "name" d) as [name|]; simpl; split; reflexivity.
Qed.

Lemma product_den_ok p w :
  fst (_process_product p w) = fst (product_den p) /\
  loader (snd (_process_product p w)) = apply_ops (snd (product_den p)) (loader w).
Proof.
  unfold _process_product, product_den, bind, py_get, py_getitem, py_hash,
    modify, ret, raise.
  destruct p; simpl; try (split; reflexivity).
  destruct (dict_lookup "id" d) as [id|]; simpl; try (split; reflexivity).
  destruct (hash_key id) as [k|]; simpl; try (split; reflexivity).
  destruct (default VNone (dict_lookup "categ_id" d)); simpl; split; reflexivity.
Qed.

Lemma contact_den_ok c w :
  fst (_process_contact c w) = fst (contact_den c) /\
  loader (snd (_process_contact c w)) = apply_ops (snd (contact_den c)) (loader w).
Proof.
  unfold _process_contact, contact_den, bind, py_get, py_getitem, py_hash,
    modify, read, logger, ret, raise.
  destruct c; simpl; try (split; reflexivity).
  destruct (dict_lookup "id" d) as [id|]; simpl; try (split; reflexivity).
  destruct (hash_key id) as [k|]; simpl; try (split; reflexivity).
  destruct (default VNone (dict_lookup "country_id" d)) as [ | | | | |l| ];
    simpl; try (split; reflexivity).
  destruct l as [|code [|name rest]]; simpl; try (split; reflexivity).
  destruct (hash_key name) as [nk|]; simpl; try (split; reflexivity).
  unfold set_country_code_map, put_if_absent; simpl.
  destruct (country_code_map (loader w) !! nk) as [old|]; simpl.
  - destruct (negb (py_eq old code)); simpl; split; reflexivity.
  - split; reflexivity.
Qed.

Lemma validate_numeric_outcome v dflt w :
  fst (validate_numeric v dflt w) = numeric_outcome v dflt.
Proof.
  rewrite validate_numeric_run. unfold numeric_outcome.
  destruct (py_float v) as [[]|x]; reflexivity.
Qed.

Lemma sale_den_ok sale w :
  fst (transform SalesLoadStrategy sale w) = fst (sale_den (refs_of (loader w)) sale) /\
  loader (snd (transform SalesLoadStrategy sale w))
    = apply_ops (snd (sale_den (refs_of (loader w)) sale)) (loader w).
Proof.
  unfold transform, _process_sale, sale_den, bind, py_get, py_startswith, py_hash,
    read, modify, ret, raise, refs_of, category_key_of.
  destruct sale; simpl; try (split; reflexivity).
  destruct (default (VStr "") (dict_lookup "create_date" d)); simpl;
    try (split; reflexivity).
  destruct (String.prefix "2024" s); simpl; try (split; reflexivity).
  destruct (truthy (extract_id (default VNone (dict_lookup "product_id" d))));
    simpl; try (split; reflexivity).
  pose proof (validate_numeric_loader
                (default (VInt 0) (dict_lookup "product_uom_qty" d)) fzero w) as Hl.
  pose proof (validate_numeric_outcome
                (default (VInt 0) (dict_lookup "product_uom_qty" d)) fzero w) as Ho.
  destruct (validate_numeric (default (VInt 0) (dict_lookup "product_uom_qty" d)) fzero w)
    as [[q|e] wq]; simpl in Hl, Ho; rewrite <- Ho; simpl;
    [|split; [reflexivity|exact Hl]].
  destruct (hash_key (extract_id (default VNone (dict_lookup "order_partner_id" d))))
    as [ck|]; simpl; [|split; [reflexivity|exact Hl]].
  destruct (hash_key (extract_id (default VNone (dict_lookup "product_id" d))))
    as [pk|]; simpl; [|split; [reflexivity|exact Hl]].
  rewrite Hl.
  destruct (truthy match product_category_map (loader w) !! pk with
                   | Some c => cr_id c | None => VNone end); simpl.
  - destruct (hash_key match product_category_map (loader w) !! pk with
                       | Some c => cr_id c | None => VNone end) as [cik|]; simpl;
      [|split; [reflexivity|exact Hl]].
    destruct (hash_key match contact_country_map (loader w) !! ck with
                       | Some c => co_name c | None => VStr "Unknown" end) as [cnk|];
      simpl; [|rewrite Hl; split; reflexivity].
    destruct (truthy (extract_id (default VNone (dict_lookup "order_partner_id" d))));
      simpl; rewrite Hl; split; reflexivity.
  - destruct (hash_key match contact_country_map (loader w) !! ck with
                       | Some c => co_name c | None => VStr "Unknown" end) as [cnk|];
      simpl; [|split; [reflexivity|exact Hl]].
    destruct (truthy (extract_id (default VNone (dict_lookup "order_partner_id" d))));
      simpl; rewrite Hl; split; reflexivity.
Qed.

Lemma record_den_ok s x w :
  fst (transform s x w) = fst (record_den s (refs_of (loader w)) x) /\
  loader (snd (transform s x w))
    = apply_ops (snd (record_den s (refs_of (loader w)) x)) (loader w).
Proof.
  destruct s.
  - apply category_den_ok.
  - apply product_den_ok.
  - apply contact_den_ok.
  - apply sale_den_ok.
Qed.

Lemma apply_ops_app a b d : apply_ops (a ++ b) d = apply_ops b (apply_ops a d).
Proof. apply fold_left_app. Qed.

Lemma sale_den_aggregate r sale : forallb is_aggregate (snd (sale_den r sale)) = true.
Proof.
  unfold sale_den.
  repeat match goal with
  | |- context [match ?x with _ => _ end] => destruct x; simpl; try reflexivity
  end.
Qed.

Lemma refs_of_aggregate ops d :
  forallb is_aggregate ops = true -> refs_of (apply_ops ops d) = refs_of d.
Proof.
  revert d. induction ops as [|o r IH]; intros d H; [reflexivity|].
  simpl in H. apply andb_prop in H as [Ho Hr]. simpl. rewrite (IH _ Hr).
  destruct o; try discriminate; reflexivity.
Qed.

Lemma record_den_stable s r x d :
  record_den s (refs_of (apply_ops (snd (record_den s r x)) d))
    = record_den s (refs_of d).
Proof.
  destruct s; try reflexivity.
  simpl. rewrite refs_of_aggregate; [reflexivity|apply sale_den_aggregate].
Qed.

Lemma for_each_den s items w :
  fst (for_each (transform s) items w)
    = fst (loop_den (record_den s (refs_of (loader w))) items) /\
  loader (snd (for_each (transform s) items w))
    = apply_ops (snd (loop_den (record_den s (refs_of (loader w))) items)) (loader w).
Proof.
  revert w. induction items as [|x r IH]; intros w; [split; reflexivity|].
  simpl. unfold bind.
  destruct (record_den_ok s x w) as [Hr Hl].
  destruct (transform s x w) as [rx w1]. simpl in Hr, Hl.
  destruct (record_den s (refs_of (loader w)) x) as [rd o] eqn:E. simpl in Hr, Hl.
  subst rx. destruct rd as [[]|e]; [|split; [reflexivity|exact Hl]].
  assert (F : record_den s (refs_of (loader w1)) = record_den s (refs_of (loader w))).
  { rewrite Hl.
    replace o with (snd (record_den s (refs_of (loader w)) x))
      by (rewrite E; reflexivity).
    apply record_den_stable. }
  specialize (IH w1). rewrite F in IH.
  destruct (loop_den (record_den s (refs_of (loader w))) r) as [res o'].
  simpl in IH |- *. destruct IH as [IH1 IH2]. split; [exact IH1|].
  rewrite IH2, Hl, apply_ops_app. reflexivity.
Qed.

Lemma success_log_run s w :
  fst (success_log s w) = Ok tt /\ loader (snd (success_log s w)) = loader w.
Proof. destruct s; split; reflexivity. Qed.

Lemma load_den s fs w :
  fst (load s fs w) = fst (stage_den s fs (refs_of (loader w))) /\
  loader (snd (load s fs w))
    = apply_ops (snd (stage_den s fs (refs_of (loader w)))) (loader w).
Proof.
  rewrite load_try. unfold stage_body, stage_den, source_den, for_items.
  destruct (stage_source s fs) as [e|items fault]; [split; reflexivity|].
  unfold bind.
  destruct (for_each_den s items w) as [Hr Hl].
  destruct (for_each (transform s) items w) as [rl w1]. simpl in Hr, Hl.
  destruct (loop_den (record_den s (refs_of (loader w))) items) as [rd o].
  simpl in Hr, Hl. subst rl.
  destruct rd as [[]|e]; [|split; [reflexivity|exact Hl]].
  destruct fault as [e|]; simpl; [split; [reflexivity|exact Hl]|].
  destruct (success_log_run s w1) as [Hs1 Hs2].
  destruct (success_log s w1) as [rs w2]. simpl in Hs1, Hs2. subst rs.
  simpl. split; [reflexivity|]. rewrite Hs2. exact Hl.
Qed.

Lemma init_den_ok fs w :
  fst (initialize_data fs w) = fst (init_den fs (loader w)) /\
  loader (snd (initialize_data fs w))
    = apply_ops (snd (init_den fs (loader w))) (loader w).
Proof.
  rewrite initialize_data_unfold. unfold init_den, early_den.
  destruct (load_den CategoryLoadStrategy fs (starting w)) as [R1 L1].
  destruct (load CategoryLoadStrategy fs (starting w)) as [r1 w1].
  change (stage_den CategoryLoadStrategy fs (refs_of (loader (starting w))))
    with (stage_den CategoryLoadStrategy fs no_refs) in R1, L1.
  cbn [starting loader fst snd] in R1, L1.
  destruct (stage_den CategoryLoadStrategy fs no_refs) as [d1 o1].
  cbn [fst snd] in R1, L1. subst r1.
  destruct d1 as [[]|e]; [|split; [reflexivity|exact L1]].
  destruct (load_den ProductLoadStrategy fs w1) as [R2 L2].
  destruct (load ProductLoadStrategy fs w1) as [r2 w2].
  change (stage_den ProductLoadStrategy fs (refs_of (loader w1)))
    with (stage_den ProductLoadStrategy fs no_refs) in R2, L2.
  cbn [fst snd] in R2, L2. rewrite L1 in L2.
  destruct (stage_den ProductLoadStrategy fs no_refs) as [d2 o2].
  cbn [fst snd] in R2, L2. subst r2. rewrite <- apply_ops_app in L2.
  destruct d2 as [[]|e]; [|split; [reflexivity|exact L2]].
  destruct (load_den ContactLoadStrategy fs w2) as [R3 L3].
  destruct (load ContactLoadStrategy fs w2) as [r3 w3].
  change (stage_den ContactLoadStrategy fs (refs_of (loader w2)))
    with (stage_den ContactLoadStrategy fs no_refs) in R3, L3.
  cbn [fst snd] in R3, L3. rewrite L2 in L3.
  destruct (stage_den ContactLoadStrategy fs no_refs) as [d3 o3].
  cbn [fst snd] in R3, L3. subst r3. rewrite <- apply_ops_app, <- app_assoc in L3.
  destruct d3 as [[]|e]; [|split; [reflexivity|exact L3]].
  destruct (load_den SalesLoadStrategy fs w3) as [R4 L4].
  destruct (load SalesLoadStrategy fs w3) as [r4 w4].
  cbn [fst snd] in R4, L4. rewrite L3 in R4, L4.
  destruct (stage_den SalesLoadStrategy fs
              (refs_of (apply_ops (o1 ++ o2 ++ o3) (loader w)))) as [d4 o4].
  cbn [fst snd] in R4, L4. subst r4.
  rewrite <- apply_ops_app in L4.
  destruct d4 as [[]|e]; split; first [reflexivity|exact L4].
Qed.

(** *** Tables written by assignment: the last write wins *)

Section Puts.
Context {V : Type} (g : op -> option (key * V)).

Lemma lookup_puts ops m k :
  puts g ops m !! k =
    match last_put g ops k with
    | Some v => Some v
    | None => m !! k
    end.
Proof.
  unfold puts. revert m. induction ops as [|o r IH]; intros m; [reflexivity|].
  simpl. rewrite IH.
  destruct (last_put g r k); [reflexivity|].
  unfold put_step. destruct (g o) as [[k' v]|]; [|reflexivity].
  destruct (decide (k' = k)) as [->|Hne].
  - apply lookup_insert_eq.
  - apply lookup_insert_ne, Hne.
Qed.

Lemma puts_twice ops m : puts g ops (puts g ops m) = puts g ops m.
Proof.
  apply map_eq. intros k. rewrite !lookup_puts.
  destruct (last_put g ops k); reflexivity.
Qed.

Lemma puts_app a b m : puts g (a ++ b) m = puts g b (puts g a m).
Proof. apply fold_left_app. Qed.

Lemma puts_untouched ops m :
  Forall (fun o => g o = None) ops -> puts g ops m = m.
Proof.
  unfold puts. intros H. revert m.
  induction H as [|o r Ho _ IH]; intros m; [reflexivity|].
  simpl. replace (put_step g m o) with m by (unfold put_step; rewrite Ho; reflexivity).
  apply IH.
Qed.

End Puts.

Lemma apply_ops_fields ops d :
  categories (apply_ops ops d) = puts g_categories ops (categories d) /\
  products (apply_ops ops d) = puts g_products ops (products d) /\
  contacts (apply_ops ops d) = puts g_contacts ops (contacts d) /\
  category_index (apply_ops ops d) = puts g_category_index ops (category_index d) /\
  product_category_map (apply_ops ops d)
    = puts g_product_category ops (product_category_map d) /\
  contact_country_map (apply_ops ops d)
    = puts g_contact_country ops (contact_country_map d).
Proof.
  revert d. induction ops as [|o r IH]; intros d; [repeat split|].
  simpl. destruct (IH (apply_op o d)) as (H1 & H2 & H3 & H4 & H5 & H6).
  rewrite H1, H2, H3, H4, H5, H6. destruct o; repeat split.
Qed.

(** *** The country code index: the first write wins *)

Lemma lookup_codes ops m k :
  codes ops m !! k =
    match m !! k with
    | Some v => Some v
    | None => first_code ops k
    end.
Proof.
  revert m. induction ops as [|o r IH]; intros m.
  - simpl. destruct (m !! k); reflexivity.
  - simpl. unfold codes in IH. rewrite IH.
    destruct o; simpl; try reflexivity.
    unfold put_if_absent.
    destruct (m !! k0) as [old|] eqn:Hk0; destruct (decide (k0 = k)) as [->|Hne].
    + rewrite Hk0. reflexivity.
    + reflexivity.
    + rewrite lookup_insert_eq, Hk0. reflexivity.
    + rewrite lookup_insert_ne by exact Hne. reflexivity.
Qed.

Lemma codes_twice ops m : codes ops (codes ops m) = codes ops m.
Proof.
  apply map_eq. intros k. rewrite !lookup_codes.
  destruct (m !! k); [reflexivity|]. destruct (first_code ops k); reflexivity.
Qed.

Lemma apply_ops_codes ops d :
  country_code_map (apply_ops ops d) = codes ops (country_code_map d).
Proof.
  revert d. induction ops as [|o r IH]; intros d; [reflexivity|].
  simpl. rewrite IH. destruct o; reflexivity.
Qed.

(** *** The products of a client: a set *)

Lemma lookup_members ops m ck :
  members ops m !! ck =
    match added ops ck with
    | Some s => Some (s ∪ default ∅ (m !! ck))
    | None => m !! ck
    end.
Proof.
  revert m. induction ops as [|o r IH]; intros m; [reflexivity|].
  simpl. unfold members in IH. rewrite IH.
  destruct o; simpl; try reflexivity.
  unfold add_member. destruct (decide (ck0 = ck)) as [->|Hne].
  - rewrite lookup_insert_eq. simpl.
    destruct (added r ck) as [s|]; simpl; f_equal.
    + rewrite (union_comm_L {[pk]} s), <- union_assoc_L. reflexivity.
    + rewrite union_empty_r_L. reflexivity.
  - rewrite lookup_insert_ne by exact Hne. reflexivity.
Qed.

Lemma members_twice ops m : members ops (members ops m) = members ops m.
Proof.
  apply map_eq. intros ck. rewrite !lookup_members.
  destruct (added ops ck) as [s|]; [|reflexivity]. simpl. f_equal.
  rewrite union_assoc_L, union_idemp_L. reflexivity.
Qed.

Lemma apply_ops_members ops d :
  client_products (apply_ops ops d) = members ops (client_products d).
Proof.
  revert d. induction ops as [|o r IH]; intros d; [reflexivity|].
  simpl. rewrite IH. destruct o; reflexivity.
Qed.

(** *** Running the initialization again *)

Lemma loop_den_aggregate f items :
  (forall x, forallb is_aggregate (snd (f x)) = true) ->
  forallb is_aggregate (snd (loop_den f items)) = true.
Proof.
  intros Hf. induction items as [|x r IH]; [reflexivity|].
  simpl. specialize (Hf x). destruct (f x) as [[[]|e] o]; simpl in Hf |- *.
  - destruct (loop_den f r) as [res o']. simpl in IH |- *.
    rewrite forallb_app, Hf, IH. reflexivity.
  - exact Hf.
Qed.

Lemma sales_den_aggregate fs r :
  forallb is_aggregate (snd (stage_den SalesLoadStrategy fs r)) = true.
Proof.
  unfold stage_den, source_den.
  destruct (stage_source SalesLoadStrategy fs) as [e|items fault]; [reflexivity|].
  pose proof (loop_den_aggregate (record_den SalesLoadStrategy r) items
                (sale_den_aggregate r)) as H.
  destruct (loop_den (record_den SalesLoadStrategy r) items) as [[[]|e] o];
    simpl in H |- *; [destruct fault|]; exact H.
Qed.

Lemma aggregate_puts {V} (g : op -> option (key * V)) ops :
  (forall o, is_aggregate o = true -> g o = None) ->
  forallb is_aggregate ops = true -> Forall (fun o => g o = None) ops.
Proof.
  intros Hg H. induction ops as [|o r IH]; [constructor|].
  simpl in H. apply andb_prop in H as [Ho Hr].
  constructor; [apply Hg, Ho|apply IH, Hr].
Qed.

(** The reference tables after the first three stages do not depend on
    what an earlier run left in the loader. *)
Lemma refs_rebuilt o o4 d :
  forallb is_aggregate o4 = true ->
  refs_of (apply_ops o (apply_ops (o ++ o4) d)) = refs_of (apply_ops o d).
Proof.
  intros H. unfold refs_of.
  destruct (apply_ops_fields o (apply_ops (o ++ o4) d)) as (_&_&_&_&H5&H6).
  destruct (apply_ops_fields (o ++ o4) d) as (_&_&_&_&H5'&H6').
  destruct (apply_ops_fields o d) as (_&_&_&_&H5''&H6'').
  rewrite H5, H6, H5', H6', H5'', H6'', !puts_app.
  rewrite (puts_untouched g_product_category o4), (puts_untouched g_contact_country o4).
  - rewrite !puts_twice. reflexivity.
  - apply aggregate_puts; [|exact H]. intros []; simpl; congruence.
  - apply aggregate_puts; [|exact H]. intros []; simpl; congruence.
Qed.

Lemma init_den_again fs d :
  init_den fs (apply_ops (snd (init_den fs d)) d) = init_den fs d.
Proof.
  unfold init_den. destruct (early_den fs) as [[[]|e] o]; [|reflexivity].
  pose proof (sales_den_aggregate fs (refs_of (apply_ops o d))) as H.
  destruct (stage_den SalesLoadStrategy fs (refs_of (apply_ops o d))) as [r4 o4] eqn:E.
  cbn [snd] in H |- *. rewrite (refs_rebuilt o o4 d H), E. reflexivity.
Qed.

(** C1, as amended: a second [initialize_data] on the same files ends as
    the first did and re-applies the very same updates on top of the loader
    the first run left; nothing is reset. The tables written by assignment
    (categories, products, contacts, the category index, the product to
    category and contact to country maps), the country code index and
    [client_products] therefore come out equal to those of the first run,
    while the sales totals are accumulated a second time. *)
Theorem reinitialize_reapplies_updates fs w :
  let run1 := initialize_data fs w in
  let run2 := initialize_data fs (snd run1) in
  let d1 := loader (snd run1) in
  let d2 := loader (snd run2) in
  fst run2 = fst run1 /\
  categories d2 = categories d1 /\
  products d2 = products d1 /\
  contacts d2 = contacts d1 /\
  category_index d2 = category_index d1 /\
  product_category_map d2 = product_category_map d1 /\
  contact_country_map d2 = contact_country_map d1 /\
  country_code_map d2 = country_code_map d1 /\
  client_products d2 = client_products d1 /\
  exists ops, d1 = apply_ops ops (loader w) /\ d2 = apply_ops ops d1.
Proof.
  cbv zeta.
  destruct (init_den_ok fs w) as [R1 L1].
  destruct (init_den_ok fs (snd (initialize_data fs w))) as [R2 L2].
  set (d1 := loader (snd (initialize_data fs w))) in *.
  set (d2 := loader (snd (initialize_data fs (snd (initialize_data fs w))))) in *.
  set (ops := snd (init_den fs (loader w))) in *.
  assert (E : init_den fs d1 = init_den fs (loader w)).
  { rewrite L1. apply init_den_again. }
  rewrite E in R2, L2. fold ops in L2.
  split; [congruence|].
  destruct (apply_ops_fields ops d1) as (F1 & F2 & F3 & F4 & F5 & F6).
  destruct (apply_ops_fields ops (loader w)) as (G1 & G2 & G3 & G4 & G5 & G6).
  rewrite <- L2 in F1, F2, F3, F4, F5, F6.
  rewrite <- L1 in G1, G2, G3, G4, G5, G6.
  rewrite F1, F2, F3, F4, F5, F6, G1, G2, G3, G4, G5, G6, !puts_twice.
  repeat (split; [reflexivity|]).
  split; [|split].
  - rewrite L2, L1, !apply_ops_codes. apply codes_twice.
  - rewrite L2, L1, !apply_ops_members. apply members_twice.
  - exists ops. split; assumption.
Qed.

(** C1 as stated fails: after one run on [one_sale_files] the total of
    category 1 is [3.0], after a second run on the same files it is [6.0]. *)
Lemma reinitialize_accumulates_sales :
  ~ (forall fs,
       loader (snd (initialize_data fs (snd (initialize_data fs world_init))))
         = loader (snd (initialize_data fs world_init))).
Proof.
  intros H. specialize (H one_sale_files).
  apply (f_equal (fun d => category_sales d !! key_of_int 1)) in H.
  vm_compute in H. discriminate H.
Qed.

Example one_sale_first_run :
  fst (initialize_data one_sale_files world_init) = Ok tt /\
  category_sales (loader (snd (initialize_data one_sale_files world_init)))
    !! key_of_int 1 = Some f_three /\
  sales_at (country_product_sales
              (loader (snd (initialize_data one_sale_files world_init))))
           (KStr "France") (key_of_int 10) = f_three.
Proof. vm_compute. auto. Qed.

(** ** The scenarios of the specification, run on the model *)

(** A quantity ["-7"] is clamped to [0.0] and still recorded under the
    customer's country. *)
Example scenario_negative_quantity :
  let w := snd (_process_contact
                  (VDict [("id", VInt 5); ("name", VStr "Bob");
                          ("country_id", VList [VInt 2; VStr "France"])])
                  world_init) in
  let sale := VDict [("create_date", VStr "2024-02-01");
                     ("product_id", VList [VInt 10; VStr "Cola"]);
                     ("order_partner_id", VList [VInt 5; VStr "Bob"]);
                     ("product_uom_qty", VStr "-7")] in
  fst (_process_sale sale w) = Ok true /\
  sales_at (country_product_sales (loader (snd (_process_sale sale w))))
           (KStr "France") (key_of_int 10) = fzero /\
  is_Some (country_product_sales (loader (snd (_process_sale sale w)))
             !! KStr "France").
Proof. vm_compute. eauto. Qed.

(** A sale without a customer: the country aggregate is updated under
    ["Unknown"], [client_products] gets no key. *)
Example scenario_no_customer :
  let sale := VDict [("create_date", VStr "2024-02-01");
                     ("product_id", VList [VInt 10; VStr "Cola"]);
                     ("product_uom_qty", VInt 4)] in
  fst (_process_sale sale world_init) = Ok true /\
  sales_at (country_product_sales (loader (snd (_process_sale sale world_init))))
           (KStr "Unknown") (key_of_int 10)
    = S754_finite false 4503599627370496 (-50) /\
  client_products (loader (snd (_process_sale sale world_init))) = ∅.
Proof. vm_compute. auto. Qed.

(** * Further properties of the loader *)

(** ** Which tables a stage writes *)

Lemma loader_ext d d' :
  category_tables d = category_tables d' ->
  product_tables d = product_tables d' ->
  contact_tables d = contact_tables d' ->
  aggregates d = aggregates d' ->
  d = d'.
Proof.
  destruct d, d'. unfold category_tables, product_tables, contact_tables, aggregates.
  simpl. intros [= -> ->] [= -> ->] [= -> -> ->] [= -> -> -> ->]. reflexivity.
Qed.

Lemma record_den_made_by s r x : forallb (made_by s) (snd (record_den s r x)) = true.
Proof.
  destruct s; simpl.
  - unfold category_den.
    repeat match goal with
    | |- context [match ?x with _ => _ end] => destruct x; simpl; try reflexivity
    end.
  - unfold product_den.
    repeat match goal with
    | |- context [match ?x with _ => _ end] => destruct x; simpl; try reflexivity
    end.
  - unfold contact_den.
    repeat match goal with
    | |- context [match ?x with _ => _ end] => destruct x; simpl; try reflexivity
    end.
  - unfold sale_den.
    repeat match goal with
    | |- context [match ?x with _ => _ end] => destruct x; simpl; try reflexivity
    end.
Qed.

Lemma loop_den_forallb (P : op -> bool) f items :
  (forall x, forallb P (snd (f x)) = true) ->
  forallb P (snd (loop_den f items)) = true.
Proof.
  intros Hf. induction items as [|x r IH]; [reflexivity|].
  simpl. specialize (Hf x). destruct (f x) as [[[]|e] o]; simpl in Hf |- *.
  - destruct (loop_den f r) as [res o']. simpl in IH |- *.
    rewrite forallb_app, Hf, IH. reflexivity.
  - exact Hf.
Qed.

Lemma stage_den_made_by s fs r : forallb (made_by s) (snd (stage_den s fs r)) = true.
Proof.
  unfold stage_den, source_den.
  destruct (stage_source s fs) as [e|items fault]; [reflexivity|].
  pose proof (loop_den_forallb (made_by s) (record_den s r) items
                (record_den_made_by s r)) as H.
  destruct (loop_den (record_den s r) items) as [[[]|e] o];
    simpl in H |- *; [destruct fault|]; exact H.
Qed.

Lemma apply_op_frame o d :
  (stage_of_op o <> CategoryLoadStrategy ->
   category_tables (apply_op o d) = category_tables d) /\
  (stage_of_op o <> ProductLoadStrategy ->
   product_tables (apply_op o d) = product_tables d) /\
  (stage_of_op o <> ContactLoadStrategy ->
   contact_tables (apply_op o d) = contact_tables d) /\
  (stage_of_op o <> SalesLoadStrategy ->
   aggregates (apply_op o d) = aggregates d).
Proof. destruct o; simpl; repeat split; intros H; congruence. Qed.

Lemma apply_ops_frame s ops d :
  forallb (made_by s) ops = true ->
  (s <> CategoryLoadStrategy ->
   category_tables (apply_ops ops d) = category_tables d) /\
  (s <> ProductLoadStrategy ->
   product_tables (apply_ops ops d) = product_tables d) /\
  (s <> ContactLoadStrategy ->
   contact_tables (apply_ops ops d) = contact_tables d) /\
  (s <> SalesLoadStrategy ->
   aggregates (apply_ops ops d) = aggregates d).
Proof.
  revert d. induction ops as [|o r IH]; intros d H; [repeat split|].
  simpl in H. apply andb_prop in H as [Ho Hr].
  unfold made_by in Ho. apply bool_decide_eq_true in Ho.
  simpl. destruct (IH (apply_op o d) Hr) as (I1 & I2 & I3 & I4).
  destruct (apply_op_frame o d) as (F1 & F2 & F3 & F4). rewrite Ho in *.
  repeat split; intros Hs.
  - rewrite I1, F1; auto.
  - rewrite I2, F2; auto.
  - rewrite I3, F3; auto.
  - rewrite I4, F4; auto.
Qed.

(** X1: a stage writes its own tables only, whatever its file holds and
    however it ends: the category stage leaves the product tables, the
    contact tables and the aggregates as they were, and so on for each
    stage; the sales stage never changes a reference table. *)
Theorem load_writes_own_tables_only s fs w :
  let d := loader w in
  let d' := loader (snd (load s fs w)) in
  (s <> CategoryLoadStrategy -> category_tables d' = category_tables d) /\
  (s <> ProductLoadStrategy -> product_tables d' = product_tables d) /\
  (s <> ContactLoadStrategy -> contact_tables d' = contact_tables d) /\
  (s <> SalesLoadStrategy -> aggregates d' = aggregates d).
Proof.
  cbv zeta. destruct (load_den s fs w) as [_ ->].
  apply apply_ops_frame, stage_den_made_by.
Qed.

Lemma load_writes_own_tables_only_witness :
  let fs := one_sale_files in
  let w := snd (load ContactLoadStrategy one_sale_files world_init) in
  contact_tables (loader (snd (load SalesLoadStrategy fs w))) = contact_tables (loader w).
Proof.
  intros fs w.
  apply (proj1 (proj2 (proj2 (load_writes_own_tables_only SalesLoadStrategy fs w)))).
  discriminate.
Defined.

(** ** The first three stages in another order *)

Lemma apply_op_commute a b d :
  stage_of_op a <> stage_of_op b ->
  apply_op a (apply_op b d) = apply_op b (apply_op a d).
Proof. destruct a, b; simpl; intros H; try congruence; reflexivity. Qed.

Lemma apply_op_ops_commute s a ops d :
  stage_of_op a <> s -> forallb (made_by s) ops = true ->
  apply_op a (apply_ops ops d) = apply_ops ops (apply_op a d).
Proof.
  intros Ha. revert d. induction ops as [|b r IH]; intros d H; [reflexivity|].
  simpl in H. apply andb_prop in H as [Hb Hr].
  apply bool_decide_eq_true in Hb.
  simpl. rewrite (IH _ Hr). f_equal. apply apply_op_commute. congruence.
Qed.

Lemma apply_ops_commute s1 s2 o1 o2 d :
  s1 <> s2 ->
  forallb (made_by s1) o1 = true -> forallb (made_by s2) o2 = true ->
  apply_ops o2 (apply_ops o1 d) = apply_ops o1 (apply_ops o2 d).
Proof.
  intros Hs. revert d. induction o1 as [|a r IH]; intros d H1 H2; [reflexivity|].
  simpl in H1. apply andb_prop in H1 as [Ha Hr].
  apply bool_decide_eq_true in Ha.
  simpl. rewrite (IH _ Hr H2). f_equal.
  symmetry. apply (apply_op_ops_commute s2); [congruence|exact H2].
Qed.

Lemma stage_den_early s fs r r' :
  s <> SalesLoadStrategy -> stage_den s fs r = stage_den s fs r'.
Proof. destruct s; intros H; try reflexivity. congruence. Qed.

(** X2: the category, product and contact stages do not depend on one
    another: run in either order, two of them end the same way and leave
    the same loader. *)
Theorem early_stages_commute s1 s2 fs w :
  s1 <> SalesLoadStrategy -> s2 <> SalesLoadStrategy -> s1 <> s2 ->
  fst (load s2 fs (snd (load s1 fs w))) = fst (load s2 fs w) /\
  fst (load s1 fs (snd (load s2 fs w))) = fst (load s1 fs w) /\
  loader (snd (load s2 fs (snd (load s1 fs w))))
    = loader (snd (load s1 fs (snd (load s2 fs w)))).
Proof.
  intros H1 H2 Hne.
  destruct (load_den s1 fs w) as [R1 L1].
  destruct (load_den s2 fs w) as [R2 L2].
  destruct (load_den s2 fs (snd (load s1 fs w))) as [R21 L21].
  destruct (load_den s1 fs (snd (load s2 fs w))) as [R12 L12].
  rewrite (stage_den_early s2 fs _ (refs_of (loader w)) H2) in R21, L21.
  rewrite (stage_den_early s1 fs _ (refs_of (loader w)) H1) in R12, L12.
  split; [congruence|]. split; [congruence|].
  rewrite L21, L12, L1, L2.
  apply (apply_ops_commute s1 s2); [exact Hne|apply stage_den_made_by..].
Qed.

Lemma early_stages_commute_witness :
  loader (snd (load ProductLoadStrategy one_sale_files
                 (snd (load CategoryLoadStrategy one_sale_files world_init))))
  = loader (snd (load CategoryLoadStrategy one_sale_files
                   (snd (load ProductLoadStrategy one_sale_files world_init)))).
Proof.
  apply (early_stages_commute CategoryLoadStrategy ProductLoadStrategy
           one_sale_files world_init); discriminate.
Defined.

(** ** Records with the same id, contacts with the same country *)

Lemma for_each_cons_ok {A} (body : A -> M unit) x r w w' :
  for_each body (x :: r) w = (Ok tt, w') ->
  exists w1, body x w = (Ok tt, w1) /\ for_each body r w1 = (Ok tt, w').
Proof.
  simpl. unfold bind. destruct (body x w) as [[[]|e] w1]; [|discriminate].
  intros H. exists w1. auto.
Qed.

(** A stage that returns has run its whole loop, to the end of the stream. *)
Lemma load_ok_inv s fs w :
  fst (load s fs w) = Ok tt ->
  exists items w1,
    stage_source s fs = Stream items None /\
    for_each (transform s) items w = (Ok tt, w1) /\
    loader (snd (load s fs w)) = loader w1.
Proof.
  rewrite load_try. unfold stage_body, for_items.
  destruct (stage_source s fs) as [e|items fault]; [discriminate|].
  unfold bind.
  destruct (for_each (transform s) items w) as [[[]|e] w1] eqn:E; [|discriminate].
  destruct fault as [e|]; [discriminate|]. simpl.
  destruct (success_log_run s w1) as [Hs1 Hs2].
  destruct (success_log s w1) as [[[]|e] w2]; simpl in *; [|discriminate].
  intros _. exists items, w1. auto.
Qed.

Lemma last_record_wins_loop (body : value -> M unit)
    (table : DataLoader -> gmap key value) :
  (forall x w w1, body x w = (Ok tt, w1) ->
     exists kx, record_key x = Some kx /\
                table (loader w1) = <[kx := x]> (table (loader w))) ->
  forall items w w', for_each body items w = (Ok tt, w') ->
  forall k, table (loader w') !! k =
            match last_with_key items k with
            | Some y => Some y
            | None => table (loader w) !! k
            end.
Proof.
  intros Hbody. induction items as [|x r IH]; intros w w' H k.
  - simpl in H. injection H as <-. reflexivity.
  - apply for_each_cons_ok in H as (w1 & Hx & Hr).
    rewrite (IH w1 w' Hr k). simpl.
    destruct (last_with_key r k); [reflexivity|].
    destruct (Hbody x w w1 Hx) as (kx & Hk & ->). rewrite Hk.
    destruct (decide (Some kx = Some k)) as [[= ->]|Hne].
    + apply lookup_insert_eq.
    + apply lookup_insert_ne. congruence.
Qed.

Lemma process_category_stores x w w1 :
  _process_category x w = (Ok tt, w1) ->
  exists kx, record_key x = Some kx /\
             categories (loader w1) = <[kx := x]> (categories (loader w)).
Proof.
  intros H.
  destruct (process_category_ok_inv x w) as (d & id & k & name & -> & Hid & Hk & Hn).
  { rewrite H. reflexivity. }
  rewrite (process_category_run d id k name w Hid Hk Hn) in H.
  injection H as <-. exists k. simpl. rewrite Hid. auto.
Qed.

Lemma process_product_stores x w w1 :
  _process_product x w = (Ok tt, w1) ->
  exists kx, record_key x = Some kx /\
             products (loader w1) = <[kx := x]> (products (loader w)).
Proof.
  unfold _process_product, bind, py_get, py_getitem, py_hash, modify, ret, raise.
  destruct x; simpl; try discriminate.
  destruct (dict_lookup "id" d) as [id|]; simpl; try discriminate.
  destruct (hash_key id) as [k|]; simpl; try discriminate.
  destruct (default VNone (dict_lookup "categ_id" d)); simpl;
    intros [= <-]; exists k; auto.
Qed.

Lemma process_contact_stores x w w1 :
  _process_contact x w = (Ok tt, w1) ->
  exists kx, record_key x = Some kx /\
             contacts (loader w1) = <[kx := x]> (contacts (loader w)).
Proof.
  unfold _process_contact, bind, py_get, py_getitem, py_hash, modify, read,
    logger, ret, raise.
  destruct x; simpl; try discriminate.
  destruct (dict_lookup "id" d) as [id|]; simpl; try discriminate.
  destruct (hash_key id) as [k|]; simpl; try discriminate.
  destruct (default VNone (dict_lookup "country_id" d)) as [ | | | | |l| ];
    simpl; try (intros [= <-]; exists k; auto).
  destruct l as [|code [|name rest]]; simpl; try (intros [= <-]; exists k; auto).
  destruct (hash_key name) as [nk|]; simpl; try discriminate.
  destruct (country_code_map (loader w) !! nk) as [old|]; simpl.
  - destruct (negb (py_eq old code)); simpl; intros [= <-]; exists k; auto.
  - intros [= <-]; exists k; auto.
Qed.

(** X3: among the records of one file that share an id, the last one is
    the one kept: after a category, product or contact stage that returns,
    each key of its table holds the last record of the stream with that id,
    or what it held before when the stream has none. *)
Theorem last_record_with_an_id_wins fs w k :
  (fst (load CategoryLoadStrategy fs w) = Ok tt ->
   exists items, categories_json fs = Stream items None /\
     categories (loader (snd (load CategoryLoadStrategy fs w))) !! k =
       match last_with_key items k with
       | Some y => Some y
       | None => categories (loader w) !! k
       end) /\
  (fst (load ProductLoadStrategy fs w) = Ok tt ->
   exists items, products_json fs = Stream items None /\
     products (loader (snd (load ProductLoadStrategy fs w))) !! k =
       match last_with_key items k with
       | Some y => Some y
       | None => products (loader w) !! k
       end) /\
  (fst (load ContactLoadStrategy fs w) = Ok tt ->
   exists items, contacts_json fs = Stream items None /\
     contacts (loader (snd (load ContactLoadStrategy fs w))) !! k =
       match last_with_key items k with
       | Some y => Some y
       | None => contacts (loader w) !! k
       end).
Proof.
  split; [|split]; intros H;
    apply load_ok_inv in H as (items & w1 & Hsrc & Hloop & ->);
    exists items; (split; [exact Hsrc|]).
  - apply (last_record_wins_loop _ categories process_category_stores _ _ _ Hloop).
  - apply (last_record_wins_loop _ products process_product_stores _ _ _ Hloop).
  - apply (last_record_wins_loop _ contacts process_contact_stores _ _ _ Hloop).
Qed.

Lemma last_record_with_an_id_wins_witness :
  exists items,
    categories_json two_categories_files = Stream items None /\
    categories (loader (snd (load CategoryLoadStrategy two_categories_files world_init)))
      !! key_of_int 1 =
      match last_with_key items (key_of_int 1) with
      | Some y => Some y
      | None => categories (loader world_init) !! key_of_int 1
      end.
Proof.
  apply (proj1 (last_record_with_an_id_wins two_categories_files world_init
                  (key_of_int 1))).
  reflexivity.
Defined.

Lemma process_contact_code x w w1 :
  _process_contact x w = (Ok tt, w1) ->
  country_code_map (loader w1) =
    match contact_country x with
    | Some (code, name) =>
        match hash_key name with
        | Some nk => put_if_absent nk code (country_code_map (loader w))
        | None => country_code_map (loader w)
        end
    | None => country_code_map (loader w)
    end.
Proof.
  unfold _process_contact, contact_country, bind, py_get, py_getitem, py_hash,
    modify, read, logger, ret, raise, put_if_absent.
  destruct x; simpl; try discriminate.
  destruct (dict_lookup "id" d) as [id|]; simpl; try discriminate.
  destruct (hash_key id) as [k|]; simpl; try discriminate.
  destruct (default VNone (dict_lookup "country_id" d)) as [ | | | | |l| ];
    simpl; try (intros [= <-]; reflexivity).
  destruct l as [|code [|name rest]]; simpl; try (intros [= <-]; reflexivity).
  destruct (hash_key name) as [nk|]; simpl; try discriminate.
  destruct (country_code_map (loader w) !! nk) as [old|]; simpl.
  - destruct (negb (py_eq old code)); simpl; intros [= <-]; reflexivity.
  - intros [= <-]; reflexivity.
Qed.

Lemma first_code_wins_loop items w w' k :
  for_each _process_contact items w = (Ok tt, w') ->
  country_code_map (loader w') !! k =
    match country_code_map (loader w) !! k with
    | Some c => Some c
    | None => first_country_code items k
    end.
Proof.
  revert w. induction items as [|x r IH]; intros w H.
  - simpl in H. injection H as <-. simpl.
    destruct (country_code_map (loader w) !! k); reflexivity.
  - apply for_each_cons_ok in H as (w1 & Hx & Hr).
    rewrite (IH w1 Hr), (process_contact_code x w w1 Hx). simpl.
    destruct (contact_country x) as [[code name]|]; [|reflexivity].
    destruct (hash_key name) as [nk|] eqn:Hn.
    + unfold put_if_absent.
      destruct (decide (Some nk = Some k)) as [[= ->]|Hne].
      * destruct (country_code_map (loader w) !! k) eqn:E; [rewrite E; reflexivity|].
        rewrite lookup_insert_eq. reflexivity.
      * destruct (country_code_map (loader w) !! nk) eqn:E; [reflexivity|].
        rewrite lookup_insert_ne by congruence. reflexivity.
    + destruct (decide (None = Some k)); [discriminate|reflexivity].
Qed.

(** X4: the code of a country is the first one seen. After a contact stage
    that returns, a country name that had a code keeps it, and a name that
    had none has the code of the first contact of the stream that carries
    that name (none if no contact does). *)
Theorem country_code_is_first_seen fs w k :
  fst (load ContactLoadStrategy fs w) = Ok tt ->
  exists items,
    contacts_json fs = Stream items None /\
    country_code_map (loader (snd (load ContactLoadStrategy fs w))) !! k =
      match country_code_map (loader w) !! k with
      | Some c => Some c
      | None => first_country_code items k
      end.
Proof.
  intros H. apply load_ok_inv in H as (items & w1 & Hsrc & Hloop & ->).
  exists items. split; [exact Hsrc|]. apply first_code_wins_loop, Hloop.
Qed.

Lemma country_code_is_first_seen_witness :
  exists items,
    contacts_json two_contacts_files = Stream items None /\
    country_code_map (loader (snd (load ContactLoadStrategy two_contacts_files world_init)))
      !! KStr "France" =
      match country_code_map (loader world_init) !! KStr "France" with
      | Some c => Some c
      | None => first_country_code items (KStr "France")
      end.
Proof.
  apply (country_code_is_first_seen two_contacts_files world_init (KStr "France")).
  reflexivity.
Defined.

(** ** [validate_numeric]: what it returns, what it raises *)

(** X5: [validate_numeric] lets one exception out, the [OverflowError] of
    an integer too large for a float, and then has logged nothing and
    changed nothing; every other value, of any shape, is answered. *)
Theorem validate_numeric_raises_only_overflow v dflt w e :
  fst (validate_numeric v dflt w) = Raise e ->
  e = OverflowError /\
  (exists z, v = VInt z /\ float_of_int z = None) /\
  snd (validate_numeric v dflt w) = w.
Proof.
  rewrite validate_numeric_run.
  destruct (py_float v) as [e0|x] eqn:E; [|discriminate].
  destruct (py_float_raises v e0 E) as [->|[->|[-> Hz]]]; simpl; try discriminate.
  intros [= <-]. auto.
Qed.

Lemma validate_numeric_raises_only_overflow_witness :
  OverflowError = OverflowError /\
  (exists z, VInt (2 ^ 1024) = VInt z /\ float_of_int z = None) /\
  snd (validate_numeric (VInt (2 ^ 1024)) fzero world_init) = world_init.
Proof.
  apply (validate_numeric_raises_only_overflow (VInt (2 ^ 1024)) fzero world_init).
  vm_compute. reflexivity.
Defined.

Lemma py_max0_not_negative x : not_negative (py_max0 x).
Proof.
  unfold not_negative, py_max0. destruct (fltb x fzero) eqn:E; [reflexivity|exact E].
Qed.

(** X6: when [validate_numeric] returns, the loader is as before and
    either the value was coerced to a float [x] and the result is
    [max(x, 0.0)] with nothing logged (so [0.0] for a negative [x], never
    below zero, and [>= 0.0] unless [x] is a NaN), or [float] raised
    [TypeError] or [ValueError] and the result is the default, with one
    warning logged. *)
Theorem validate_numeric_returns v dflt w r w' :
  validate_numeric v dflt w = (Ok r, w') ->
  loader w' = loader w /\
  ((exists x, py_float v = inr x /\ r = py_max0 x /\ w' = w /\
              not_negative r /\
              (fltb x fzero = true -> r = fzero) /\
              (x <> S754_nan -> fleb fzero r = true)) \/
   ((py_float v = inl TypeError \/ py_float v = inl ValueError) /\
    r = dflt /\ log w' = log w ++ [Warning_invalid_numeric v])).
Proof.
  rewrite validate_numeric_run.
  destruct (py_float v) as [[]|x]; try discriminate; intros [= <- <-];
    (split; [reflexivity|]).
  - right. auto.
  - right. auto.
  - left. exists x. repeat split.
    + apply py_max0_not_negative.
    + intros H. unfold py_max0. rewrite H. reflexivity.
    + apply py_max0_nonneg.
Qed.

Lemma validate_numeric_returns_witness :
  loader world_init = loader world_init /\
  ((exists x, py_float (VStr "-7") = inr x /\ fzero = py_max0 x /\
              world_init = world_init /\ not_negative fzero /\
              (fltb x fzero = true -> fzero = fzero) /\
              (x <> S754_nan -> fleb fzero fzero = true)) \/
   ((py_float (VStr "-7") = inl TypeError \/ py_float (VStr "-7") = inl ValueError) /\
    fzero = fzero /\
    log world_init = log world_init ++ [Warning_invalid_numeric (VStr "-7")])).
Proof.
  apply (validate_numeric_returns (VStr "-7") fzero world_init fzero world_init).
  vm_compute. reflexivity.
Defined.

(** ** No total below zero *)

Lemma binary_round_not_negative m e :
  not_negative (binary_round f_prec f_emax false m e).
Proof.
  unfold not_negative, binary_round, binary_round_aux.
  destruct (shl_align m e _) as [mz ez].
  destruct (shr_fexp f_prec f_emax (Z.pos mz) ez loc_Exact) as [mrs' e'].
  destruct (shr_fexp f_prec f_emax _ e' loc_Exact) as [mrs'' e''].
  destruct (shr_m mrs''); [reflexivity| |reflexivity].
  destruct (e'' <=? f_emax - f_prec)%Z; reflexivity.
Qed.

Lemma fadd_not_negative a b :
  not_negative a -> not_negative b -> not_negative (fadd a b).
Proof.
  unfold not_negative at 1 2.
  destruct a as [sa|sa| |sa ma ea], b as [sb|sb| |sb mb eb];
    try destruct sa; try destruct sb; simpl; intros Ha Hb;
    try discriminate; try reflexivity.
  apply binary_round_not_negative.
Qed.

Lemma add_float_not_negative k q m :
  not_negative q ->
  map_Forall (fun _ x => not_negative x) m ->
  map_Forall (fun _ x => not_negative x) (add_float k q m).
Proof.
  intros Hq Hm. unfold add_float. apply map_Forall_insert_2; [|exact Hm].
  apply fadd_not_negative; [|exact Hq].
  destruct (m !! k) as [x|] eqn:E; simpl; [exact (Hm k x E)|reflexivity].
Qed.

Lemma add_float2_not_negative k1 k2 q (m : gmap key (gmap key float)) :
  not_negative q ->
  map_Forall (fun _ (i : gmap key float) => map_Forall (fun _ x => not_negative x) i) m ->
  map_Forall (fun _ (i : gmap key float) => map_Forall (fun _ x => not_negative x) i)
             (add_float2 k1 k2 q m).
Proof.
  intros Hq Hm. unfold add_float2. apply map_Forall_insert_2; [|exact Hm].
  apply add_float_not_negative; [exact Hq|].
  destruct (m !! k1) as [i|] eqn:E; simpl; [exact (Hm k1 i E)|].
  apply map_Forall_empty.
Qed.

Lemma apply_op_not_negative o d :
  adds_not_negative o -> totals_not_negative d -> totals_not_negative (apply_op o d).
Proof.
  intros Ho (H1 & H2 & H3). unfold totals_not_negative.
  destruct o; simpl in *; repeat split; try assumption.
  - apply add_float_not_negative; assumption.
  - apply add_float2_not_negative; assumption.
  - apply add_float2_not_negative; assumption.
Qed.

Lemma apply_ops_not_negative ops d :
  Forall adds_not_negative ops -> totals_not_negative d ->
  totals_not_negative (apply_ops ops d).
Proof.
  intros H. revert d. induction H as [|o r Ho _ IH]; intros d Hd; [exact Hd|].
  simpl. apply IH, apply_op_not_negative; assumption.
Qed.

Lemma numeric_outcome_not_negative v q :
  numeric_outcome v fzero = Ok q -> not_negative q.
Proof.
  unfold numeric_outcome.
  destruct (py_float v) as [[]|x]; try discriminate; intros [= <-];
    first [reflexivity|apply py_max0_not_negative].
Qed.

Lemma record_den_not_negative s r x : Forall adds_not_negative (snd (record_den s r x)).
Proof.
  destruct s; simpl.
  - unfold category_den.
    repeat match goal with
    | |- context [match ?x with _ => _ end] => destruct x; simpl
    end; repeat constructor.
  - unfold product_den.
    repeat match goal with
    | |- context [match ?x with _ => _ end] => destruct x; simpl
    end; repeat constructor.
  - unfold contact_den.
    repeat match goal with
    | |- context [match ?x with _ => _ end] => destruct x; simpl
    end; repeat constructor.
  - unfold sale_den.
    destruct x; simpl; try constructor.
    destruct (default (VStr "") (dict_lookup "create_date" d)); simpl; try constructor.
    destruct (negb (String.prefix "2024" s)); simpl; try constructor.
    destruct (negb (truthy _)); simpl; try constructor.
    destruct (numeric_outcome _ fzero) as [q|e] eqn:Hq; simpl; try constructor.
    apply numeric_outcome_not_negative in Hq.
    repeat match goal with
    | |- context [match ?x with _ => _ end] => destruct x; simpl
    end; repeat constructor; assumption.
Qed.

Lemma loop_den_Forall (P : op -> Prop) f items :
  (forall x, Forall P (snd (f x))) -> Forall P (snd (loop_den f items)).
Proof.
  intros Hf. induction items as [|x r IH]; [constructor|].
  simpl. specialize (Hf x). destruct (f x) as [[[]|e] o]; simpl in Hf |- *.
  - destruct (loop_den f r) as [res o']. simpl in IH |- *.
    apply Forall_app. auto.
  - exact Hf.
Qed.

Lemma stage_den_not_negative s fs r : Forall adds_not_negative (snd (stage_den s fs r)).
Proof.
  unfold stage_den, source_den.
  destruct (stage_source s fs) as [e|items fault]; [constructor|].
  pose proof (loop_den_Forall adds_not_negative (record_den s r) items
                (record_den_not_negative s r)) as H.
  destruct (loop_den (record_den s r) items) as [[[]|e] o];
    simpl in H |- *; [destruct fault|]; exact H.
Qed.

Lemma init_den_not_negative fs d : Forall adds_not_negative (snd (init_den fs d)).
Proof.
  unfold init_den, early_den.
  pose proof (stage_den_not_negative CategoryLoadStrategy fs no_refs) as H1.
  pose proof (stage_den_not_negative ProductLoadStrategy fs no_refs) as H2.
  pose proof (stage_den_not_negative ContactLoadStrategy fs no_refs) as H3.
  destruct (stage_den CategoryLoadStrategy fs no_refs) as [[[]|e1] o1]; [|exact H1].
  destruct (stage_den ProductLoadStrategy fs no_refs) as [[[]|e2] o2];
    [|apply Forall_app; auto].
  destruct (stage_den ContactLoadStrategy fs no_refs) as [[[]|e3] o3];
    [|repeat (apply Forall_app; split); auto].
  pose proof (stage_den_not_negative SalesLoadStrategy fs
                (refs_of (apply_ops (o1 ++ o2 ++ o3) d))) as H4.
  destruct (stage_den SalesLoadStrategy fs _) as [r4 o4]. simpl in *.
  repeat (apply Forall_app; split); auto.
Qed.

(** X7: no total ever goes below zero. If no entry of [category_sales],
    [category_product_sales] and [country_product_sales] is below zero,
    that is still so after any sale record, after any stage and after a
    whole initialization, however it ends; from the fresh loader this
    holds for every input. *)
Theorem totals_never_negative :
  (forall sale w, totals_not_negative (loader w) ->
     totals_not_negative (loader (snd (_process_sale sale w)))) /\
  (forall s fs w, totals_not_negative (loader w) ->
     totals_not_negative (loader (snd (load s fs w)))) /\
  (forall fs w, totals_not_negative (loader w) ->
     totals_not_negative (loader (snd (initialize_data fs w)))) /\
  (forall fs, totals_not_negative (loader (snd (initialize_data fs world_init)))).
Proof.
  assert (H0 : totals_not_negative DataLoader.__init__).
  { repeat split; apply map_Forall_empty. }
  assert (Hi : forall fs w, totals_not_negative (loader w) ->
                 totals_not_negative (loader (snd (initialize_data fs w)))).
  { intros fs w H. destruct (init_den_ok fs w) as [_ ->].
    apply apply_ops_not_negative; [apply init_den_not_negative|exact H]. }
  split; [|split; [|split]].
  - intros sale w H.
    destruct (sale_den_ok sale w) as [_ E]. simpl in E.
    assert (E' : loader (snd (_process_sale sale w))
                 = loader (snd ((_process_sale sale >> ret tt) w))).
    { unfold bind, ret. destruct (_process_sale sale w) as [[b|e] w1]; reflexivity. }
    rewrite E', E.
    apply apply_ops_not_negative; [|exact H].
    apply (record_den_not_negative SalesLoadStrategy).
  - intros s fs w H. destruct (load_den s fs w) as [_ ->].
    apply apply_ops_not_negative; [apply stage_den_not_negative|exact H].
  - exact Hi.
  - intros fs. apply Hi, H0.
Qed.

Lemma totals_never_negative_witness :
  totals_not_negative (loader (snd (initialize_data one_sale_files world_init))).
Proof.
  apply (proj1 (proj2 (proj2 totals_never_negative)) one_sale_files world_init).
  repeat split; apply map_Forall_empty.
Defined.

(** ** Product and contact records *)

(** X8: a product record with a hashable id is stored under that id and
    logs nothing. When its [categ_id] is a list, the product is mapped to
    the category with the list's first element as id ([None] for the empty
    list) and its second as name (["Unnamed Category"] when there is none);
    when [categ_id] is anything else, or missing, the product to category
    map is left as it is, an entry of an earlier record with that id
    included. *)
Theorem process_product_run d id k w :
  dict_lookup "id" d = Some id -> hash_key id = Some k ->
  fst (_process_product (VDict d) w) = Ok tt /\
  log (snd (_process_product (VDict d) w)) = log w /\
  products (loader (snd (_process_product (VDict d) w)))
    = <[k := VDict d]> (products (loader w)) /\
  (forall l, dict_lookup "categ_id" d = Some (VList l) ->
     product_category_map (loader (snd (_process_product (VDict d) w)))
       = <[k := category_ref_of l]> (product_category_map (loader w))) /\
  ((forall l, dict_lookup "categ_id" d <> Some (VList l)) ->
     product_category_map (loader (snd (_process_product (VDict d) w)))
       = product_category_map (loader w)).
Proof.
  intros Hid Hk.
  unfold _process_product, bind, py_get, py_getitem, py_hash, modify, ret, raise.
  rewrite Hid, Hk. simpl.
  destruct (dict_lookup "categ_id" d) as [c|] eqn:Hc; simpl.
  - destruct c; simpl; rewrite ?Hid; simpl; rewrite ?Hk; simpl;
      repeat split; try (intros l' [=]); try reflexivity.
    + subst. reflexivity.
    + intros H. exfalso. apply (H l). reflexivity.
  - repeat split; intros l' [=].
Qed.

Lemma process_product_run_witness :
  let d := [("id", VInt 10); ("name", VStr "Cola"); ("categ_id", VList [VInt 1])] in
  product_category_map (loader (snd (_process_product (VDict d) world_init)))
    = <[key_of_int 10 := category_ref_of [VInt 1]]>
        (product_category_map (loader world_init)).
Proof.
  intros d.
  apply (proj1 (proj2 (proj2 (proj2
           (process_product_run d (VInt 10) (key_of_int 10) world_init
              eq_refl eq_refl))))).
  reflexivity.
Defined.

(** X9: a contact record with a hashable id is stored under that id
    whatever follows. Without a [country_id] list of two elements or more
    nothing else changes. With one, the contact is mapped to the country
    [(code, name)]; then, if the name is unhashable, the record raises
    [TypeError] with the contact and its country already stored, and
    otherwise the code is put in the country code index unless the name
    has one. *)
Theorem process_contact_run d id k w :
  dict_lookup "id" d = Some id -> hash_key id = Some k ->
  contacts (loader (snd (_process_contact (VDict d) w)))
    = <[k := VDict d]> (contacts (loader w)) /\
  ((forall code name rest,
      dict_lookup "country_id" d <> Some (VList (code :: name :: rest))) ->
   fst (_process_contact (VDict d) w) = Ok tt /\
   log (snd (_process_contact (VDict d) w)) = log w /\
   contact_country_map (loader (snd (_process_contact (VDict d) w)))
     = contact_country_map (loader w) /\
   country_code_map (loader (snd (_process_contact (VDict d) w)))
     = country_code_map (loader w)) /\
  (forall code name rest,
     dict_lookup "country_id" d = Some (VList (code :: name :: rest)) ->
     contact_country_map (loader (snd (_process_contact (VDict d) w)))
       = <[k := {| co_code := code; co_name := name |}]>
           (contact_country_map (loader w)) /\
     (hash_key name = None ->
      fst (_process_contact (VDict d) w) = Raise TypeError /\
      country_code_map (loader (snd (_process_contact (VDict d) w)))
        = country_code_map (loader w)) /\
     (forall nk, hash_key name = Some nk ->
        fst (_process_contact (VDict d) w) = Ok tt /\
        country_code_map (loader (snd (_process_contact (VDict d) w)))
          = put_if_absent nk code (country_code_map (loader w)))).
Proof.
  intros Hid Hk.
  unfold _process_contact, bind, py_get, py_getitem, py_hash, modify, read,
    logger, ret, raise, put_if_absent.
  rewrite Hid, Hk. simpl.
  destruct (dict_lookup "country_id" d) as [c|] eqn:Hc; simpl.
  2:{ repeat split; intros; discriminate. }
  destruct c as [ | | | | |l| ]; simpl;
    try (repeat split; intros; discriminate).
  destruct l as [|code [|name rest]]; simpl;
    try (repeat split; intros; discriminate).
  split; [|split].
  - destruct (hash_key name) as [nk|]; simpl; [|reflexivity].
    destruct (country_code_map (loader w) !! nk) as [old|]; simpl;
      [destruct (negb (py_eq old code))|]; reflexivity.
  - intros H. exfalso. apply (H code name rest). reflexivity.
  - intros code' name' rest' [= <- <- <-].
    destruct (hash_key name) as [nk|]; simpl.
    + split; [|split].
      * destruct (country_code_map (loader w) !! nk) as [old|]; simpl;
          [destruct (negb (py_eq old code))|]; reflexivity.
      * discriminate.
      * intros nk' [= <-].
        destruct (country_code_map (loader w) !! nk) as [old|]; simpl;
          [destruct (negb (py_eq old code))|]; split; reflexivity.
    + split; [reflexivity|]. split; [auto|]. intros nk [=].
Qed.

Lemma process_contact_run_witness :
  let d := [("id", VInt 5); ("country_id", VList [VInt 2; VList [VStr "France"]])] in
  contact_country_map (loader (snd (_process_contact (VDict d) world_init)))
    = <[key_of_int 5 := {| co_code := VInt 2; co_name := VList [VStr "France"] |}]>
        (contact_country_map (loader world_init)) /\
  fst (_process_contact (VDict d) world_init) = Raise TypeError.
Proof.
  intros d.
  destruct (proj2 (proj2 (process_contact_run d (VInt 5) (key_of_int 5) world_init
                            eq_refl eq_refl))
              (VInt 2) (VList [VStr "France"]) [] eq_refl) as (H1 & H2 & _).
  split; [exact H1|]. apply H2. reflexivity.
Defined.

(** X10: a category record that cannot be indexed. A record that is not an
    object raises [AttributeError], one without ["id"] raises
    [KeyError("id")], one with an unhashable id raises [TypeError], all
    three with nothing changed; a record with an id and no ["name"] raises
    [KeyError("name")] after it has been stored in [categories], and
    leaves the category index without it. *)
Theorem process_category_failures c w :
  ((forall d, c <> VDict d) ->
   _process_category c w = (Raise AttributeError, w)) /\
  (forall d, c = VDict d -> dict_lookup "id" d = None ->
   _process_category c w = (Raise (KeyError "id"), w)) /\
  (forall d id, c = VDict d -> dict_lookup "id" d = Some id -> hash_key id = None ->
   _process_category c w = (Raise TypeError, w)) /\
  (forall d id k, c = VDict d -> dict_lookup "id" d = Some id -> hash_key id = Some k ->
   dict_lookup "name" d = None ->
   fst (_process_category c w) = Raise (KeyError "name") /\
   log (snd (_process_category c w)) = log w /\
   categories (loader (snd (_process_category c w))) = <[k := c]> (categories (loader w)) /\
   category_index (loader (snd (_process_category c w))) = category_index (loader w)).
Proof.
  unfold _process_category, bind, py_get, py_getitem, py_hash, modify, ret, raise.
  split; [|split; [|split]].
  - intros H. destruct c; try reflexivity. exfalso. apply (H d). reflexivity.
  - intros d -> Hid. rewrite Hid. reflexivity.
  - intros d id -> Hid Hk. rewrite Hid. simpl. rewrite Hk. reflexivity.
  - intros d id k -> Hid Hk Hn. rewrite Hid. simpl. rewrite Hk. simpl.
    rewrite Hn. simpl. auto.
Qed.

Lemma process_category_failures_witness :
  let c := VDict [("id", VInt 1)] in
  fst (_process_category c world_init) = Raise (KeyError "name") /\
  log (snd (_process_category c world_init)) = log world_init /\
  categories (loader (snd (_process_category c world_init)))
    = <[key_of_int 1 := c]> (categories (loader world_init)) /\
  category_index (loader (snd (_process_category c world_init)))
    = category_index (loader world_init).
Proof.
  intros c.
  apply (proj2 (proj2 (proj2 (process_category_failures c world_init)))
           [("id", VInt 1)] (VInt 1) (key_of_int 1)); reflexivity.
Defined.

(** ** A sale after the record it refers to *)

Lemma validate_numeric_of_outcome v dflt q w :
  numeric_outcome v dflt = Ok q ->
  exists wq, validate_numeric v dflt w = (Ok q, wq).
Proof.
  rewrite validate_numeric_run. unfold numeric_outcome.
  destruct (py_float v) as [[]|x]; try discriminate; intros [= <-]; eauto.
Qed.

(** [process_sale_run] from the quantity alone, the log apart. *)
Lemma process_sale_loader d w pk ck cnk cat q :
  starts_2024 (VDict d) = true ->
  truthy (sale_product_id (VDict d)) = true ->
  hash_key (sale_product_id (VDict d)) = Some pk ->
  hash_key (sale_customer_id (VDict d)) = Some ck ->
  numeric_outcome (sale_quantity (VDict d)) fzero = Ok q ->
  hash_key (country_name_of (loader w) ck) = Some cnk ->
  category_key_of (category_id_of (loader w) pk) = Some cat ->
  fst (_process_sale (VDict d) w) = Ok true /\
  loader (snd (_process_sale (VDict d) w))
    = sale_effect pk ck cnk cat q (truthy (sale_customer_id (VDict d))) (loader w).
Proof.
  intros H1 H2 H3 H4 H5 H6 H7.
  destruct (validate_numeric_of_outcome _ _ _ w H5) as [wq Hq].
  rewrite (process_sale_run d w pk ck cnk cat q wq H1 H2 H3 H4 Hq H6 H7).
  split; reflexivity.
Qed.







(** ** The sales stage without reference data *)

Lemma sale_den_unresolved r x :
  (snd r = ∅ -> Forall credits_no_category (snd (sale_den r x))) /\
  (fst r = ∅ -> Forall country_is_unknown (snd (sale_den r x))).
Proof.
  unfold sale_den.
  destruct x; simpl; try (split; constructor).
  destruct (default (VStr "") (dict_lookup "create_date" d)); simpl;
    try (split; constructor).
  destruct (negb (String.prefix "2024" s)); simpl; try (split; constructor).
  destruct (negb (truthy _)); simpl; try (split; constructor).
  destruct (numeric_outcome _ fzero) as [q|e]; simpl; try (split; constructor).
  destruct (hash_key (extract_id (default VNone (dict_lookup "order_partner_id" d))))
    as [ck|]; simpl; try (split; constructor).
  destruct (hash_key (extract_id (default VNone (dict_lookup "product_id" d))))
    as [pk|]; simpl; try (split; constructor).
  split; intros H; rewrite H, lookup_empty.
  - simpl.
    repeat match goal with
    | |- context [match ?x with _ => _ end] => destruct x; simpl
    end; repeat constructor.
  - unfold category_key_of.
    repeat match goal with
    | |- context [match ?x with _ => _ end] => destruct x; simpl
    end; repeat constructor; simpl in *; congruence.
Qed.

Lemma sales_den_Forall (P : op -> Prop) fs r :
  (forall x, Forall P (snd (sale_den r x))) ->
  Forall P (snd (stage_den SalesLoadStrategy fs r)).
Proof.
  intros Hx. unfold stage_den, source_den.
  destruct (stage_source SalesLoadStrategy fs) as [e|items fault]; [constructor|].
  pose proof (loop_den_Forall P (record_den SalesLoadStrategy r) items Hx) as H.
  destruct (loop_den (record_den SalesLoadStrategy r) items) as [[[]|e] o];
    simpl in H |- *; [destruct fault|]; exact H.
Qed.

Lemma apply_ops_no_category ops d :
  Forall credits_no_category ops ->
  category_sales (apply_ops ops d) = category_sales d /\
  category_product_sales (apply_ops ops d) = category_product_sales d.
Proof.
  intros H. revert d. induction H as [|o r Ho _ IH]; intros d; [split; reflexivity|].
  simpl. destruct (IH (apply_op o d)) as [-> ->].
  destruct o; simpl in Ho |- *; try contradiction; split; reflexivity.
Qed.

Lemma apply_ops_unknown_country ops d k :
  Forall country_is_unknown ops -> k <> KStr "Unknown" ->
  country_product_sales (apply_ops ops d) !! k = country_product_sales d !! k.
Proof.
  intros H Hk. revert d. induction H as [|o r Ho _ IH]; intros d; [reflexivity|].
  simpl. rewrite IH. destruct o; simpl in Ho |- *; try reflexivity.
  subst. unfold add_float2. apply lookup_insert_ne. congruence.
Qed.

(** X13: the sales stage run on a loader without reference data. With an
    empty product to category map no sale is credited to a category:
    [category_sales] and [category_product_sales] are left as they were.
    With an empty contact to country map every sale goes under
    ["Unknown"]: no other country entry of [country_product_sales]
    changes. *)
Theorem sales_without_reference_data fs w :
  (product_category_map (loader w) = ∅ ->
   category_sales (loader (snd (load SalesLoadStrategy fs w)))
     = category_sales (loader w) /\
   category_product_sales (loader (snd (load SalesLoadStrategy fs w)))
     = category_product_sales (loader w)) /\
  (contact_country_map (loader w) = ∅ ->
   forall k, k <> KStr "Unknown" ->
     country_product_sales (loader (snd (load SalesLoadStrategy fs w))) !! k
       = country_product_sales (loader w) !! k).
Proof.
  destruct (load_den SalesLoadStrategy fs w) as [_ ->].
  split; intros H.
  - apply apply_ops_no_category, sales_den_Forall.
    intros x. apply sale_den_unresolved. exact H.
  - intros k Hk. apply apply_ops_unknown_country; [|exact Hk].
    apply sales_den_Forall. intros x. apply sale_den_unresolved. exact H.
Qed.

Lemma sales_without_reference_data_witness :
  category_sales (loader (snd (load SalesLoadStrategy one_sale_files world_init)))
    = category_sales (loader world_init) /\
  category_product_sales (loader (snd (load SalesLoadStrategy one_sale_files world_init)))
    = category_product_sales (loader world_init).
Proof.
  apply (proj1 (sales_without_reference_data one_sale_files world_init)).
  reflexivity.
Defined.

(** ** The products of a client are a set *)

(** X14: a product a customer already has in [client_products] is not
    recorded again: whatever else a sale record of that customer and that
    product does, it leaves [client_products] as it was. *)
Theorem repeated_purchase_keeps_client_products sale w ck pk :
  hash_key (sale_customer_id sale) = Some ck ->
  hash_key (sale_product_id sale) = Some pk ->
  pk ∈ default ∅ (client_products (loader w) !! ck) ->
  client_products (loader (snd (_process_sale sale w))) = client_products (loader w).
Proof.
  intros Hck Hpk Hin.
  assert (A : add_member ck pk (client_products (loader w)) = client_products (loader w)).
  { unfold add_member.
    destruct (client_products (loader w) !! ck) as [S|] eqn:E; simpl in Hin.
    - apply insert_id. rewrite E. f_equal. simpl.
      apply set_eq. intros x. rewrite elem_of_union, elem_of_singleton.
      split; [auto|intros [->|H]; assumption].
    - apply elem_of_empty in Hin. contradiction. }
  unfold _process_sale, bind, py_get, py_startswith, py_hash, read, modify, ret, raise.
  destruct sale; simpl; try reflexivity.
  unfold sale_customer_id, sale_product_id, sale_field in Hck, Hpk.
  destruct (default (VStr "") (dict_lookup "create_date" d)); simpl; try reflexivity.
  destruct (String.prefix "2024" s); simpl; try reflexivity.
  destruct (truthy (extract_id (default VNone (dict_lookup "product_id" d))));
    simpl; try reflexivity.
  pose proof (validate_numeric_loader
                (default (VInt 0) (dict_lookup "product_uom_qty" d)) fzero w) as Hl.
  destruct (validate_numeric (default (VInt 0) (dict_lookup "product_uom_qty" d)) fzero w)
    as [[q|e] wq]; simpl in Hl; [|simpl; rewrite Hl; reflexivity].
  rewrite Hck, Hpk. simpl.
  repeat match goal with
  | |- context [match hash_key ?x with _ => _ end] => destruct (hash_key x); simpl
  | |- context [if truthy ?x then _ else _] => destruct (truthy x); simpl
  end; rewrite ?Hl; try reflexivity; exact A.
Qed.

Lemma repeated_purchase_keeps_client_products_witness :
  let sale := VDict [("create_date", VStr "2024-01-01");
                     ("product_id", VList [VInt 10; VStr "Cola"]);
                     ("order_partner_id", VList [VInt 5; VStr "Bob"]);
                     ("product_uom_qty", VInt 3)] in
  let w := snd (_process_sale sale world_init) in
  client_products (loader (snd (_process_sale sale w))) = client_products (loader w).
Proof.
  intros sale w.
  apply (repeated_purchase_keeps_client_products sale w (key_of_int 5) (key_of_int 10));
    [reflexivity|reflexivity|].
  vm_compute. reflexivity.
Defined.

(** ** The summary *)

Lemma summary_add_float2 cnk pk q (m : gmap key (gmap key float)) :
  map_fold (fun _ (v : gmap key float) acc => size v + acc) 0 (add_float2 cnk pk q m)
  = map_fold (fun _ (v : gmap key float) acc => size v + acc) 0 m
    + (if decide (is_Some (default ∅ (m !! cnk) !! pk)) then 0 else 1).
Proof.
  assert (C : forall (m' : gmap key (gmap key float)) (j1 j2 : key)
                     (z1 z2 : gmap key float) (y : nat),
            j1 <> j2 -> m' !! j1 = Some z1 -> m' !! j2 = Some z2 ->
            size z1 + (size z2 + y) = size z2 + (size z1 + y)) by (intros; lia).
  unfold add_float2, add_float.
  destruct (m !! cnk) as [inner|] eqn:E; cbn [default from_option id].
  - rewrite <- (insert_delete_eq m).
    rewrite map_fold_insert_L; [|apply C|apply lookup_delete_eq].
    rewrite (map_fold_delete_L _ 0 cnk inner m (C m) E).
    rewrite map_size_insert.
    destruct (decide (is_Some (inner !! pk))) as [[x Hx]|Hn].
    + rewrite Hx. simpl. lia.
    + destruct (inner !! pk) as [x|]; [exfalso; apply Hn; eauto|]. simpl. lia.
  - rewrite map_fold_insert_L; [|apply C|exact E].
    rewrite map_size_insert, lookup_empty.
    destruct (decide (is_Some (@None float))) as [[x Hx]|Hn]; [discriminate|].
    rewrite map_size_empty. simpl. lia.
Qed.

(** X15: [log_data_summary] raises nothing, leaves the loader alone and logs
    one entry with the sizes of the three record tables and a "Sales"
    figure that counts (country, product) pairs, not sale lines: a counted
    sale of a product already sold in that country leaves the figure as it
    is, a counted sale of a new pair adds one. *)
Theorem summary_counts_country_product_pairs :
  (forall w,
     log_data_summary w =
       (Ok tt,
        {| loader := loader w;
           log := log w ++
                  [Info_summary (size (categories (loader w))) (size (products (loader w)))
                     (size (contacts (loader w))) (summary_sales (loader w))] |})) /\
  (forall d w pk ck cnk cat q,
     starts_2024 (VDict d) = true ->
     truthy (sale_product_id (VDict d)) = true ->
     hash_key (sale_product_id (VDict d)) = Some pk ->
     hash_key (sale_customer_id (VDict d)) = Some ck ->
     numeric_outcome (sale_quantity (VDict d)) fzero = Ok q ->
     hash_key (country_name_of (loader w) ck) = Some cnk ->
     category_key_of (category_id_of (loader w) pk) = Some cat ->
     summary_sales (loader (snd (_process_sale (VDict d) w)))
       = summary_sales (loader w)
         + (if decide (is_Some (default ∅ (country_product_sales (loader w) !! cnk) !! pk))
            then 0 else 1)).
Proof.
  split; [reflexivity|].
  intros d w pk ck cnk cat q H1 H2 H3 H4 H5 H6 H7.
  destruct (process_sale_loader d w pk ck cnk cat q H1 H2 H3 H4 H5 H6 H7) as [_ ->].
  unfold summary_sales. rewrite sale_effect_country_product_sales.
  apply summary_add_float2.
Qed.

Lemma summary_counts_country_product_pairs_witness :
  let d := [("create_date", VStr "2024-01-01");
            ("product_id", VList [VInt 10; VStr "Cola"]);
            ("product_uom_qty", VInt 3)] in
  let w := snd (_process_sale (VDict d) world_init) in
  summary_sales (loader (snd (_process_sale (VDict d) w)))
    = summary_sales (loader w)
      + (if decide (is_Some (default ∅ (country_product_sales (loader w)
                                          !! KStr "Unknown") !! key_of_int 10))
         then 0 else 1).
Proof.
  intros d w.
  apply (proj2 summary_counts_country_product_pairs d w (key_of_int 10) KNone
           (KStr "Unknown") None f_three); vm_compute; reflexivity.
Defined.

(** ** The log *)

Ltac log_grows :=
  first [ exists []; simpl; rewrite app_nil_r; reflexivity
        | eexists; simpl; reflexivity ].

Lemma transform_log s x w : exists l, log (snd (transform s x w)) = log w ++ l.
Proof.
  destruct s; simpl.
  - unfold _process_category, bind, py_get, py_getitem, py_hash, modify, ret, raise.
    destruct x; simpl; try log_grows.
    destruct (dict_lookup "id" d) as [id|]; simpl; try log_grows.
    destruct (hash_key id) as [k|]; simpl; try log_grows.
    destruct (dict_lookup "name" d) as [name|]; simpl; log_grows.
  - unfold _process_product, bind, py_get, py_getitem, py_hash, modify, ret, raise.
    destruct x; simpl; try log_grows.
    destruct (dict_lookup "id" d) as [id|]; simpl; try log_grows.
    destruct (hash_key id) as [k|]; simpl; try log_grows.
    destruct (default VNone (dict_lookup "categ_id" d)); simpl; log_grows.
  - unfold _process_contact, bind, py_get, py_getitem, py_hash, modify, read,
      logger, ret, raise.
    destruct x; simpl; try log_grows.
    destruct (dict_lookup "id" d) as [id|]; simpl; try log_grows.
    destruct (hash_key id) as [k|]; simpl; try log_grows.
    destruct (default VNone (dict_lookup "country_id" d)) as [ | | | | |l| ];
      simpl; try log_grows.
    destruct l as [|code [|name rest]]; simpl; try log_grows.
    destruct (hash_key name) as [nk|]; simpl; try log_grows.
    destruct (country_code_map (loader w) !! nk) as [old|]; simpl;
      [destruct (negb (py_eq old code)); simpl|]; log_grows.
  - unfold _process_sale, bind, py_get, py_startswith, py_hash, read, modify, ret, raise.
    destruct x; simpl; try log_grows.
    destruct (default (VStr "") (dict_lookup "create_date" d)); simpl; try log_grows.
    destruct (String.prefix "2024" s); simpl; try log_grows.
    destruct (truthy (extract_id (default VNone (dict_lookup "product_id" d))));
      simpl; try log_grows.
    rewrite validate_numeric_run.
    destruct (py_float (default (VInt 0) (dict_lookup "product_uom_qty" d)))
      as [[]|q]; simpl; try log_grows;
    repeat match goal with
    | |- context [match hash_key ?x with _ => _ end] => destruct (hash_key x); simpl
    | |- context [if truthy ?x then _ else _] => destruct (truthy x); simpl
    end; log_grows.
Qed.

Lemma for_each_log s items w :
  exists l, log (snd (for_each (transform s) items w)) = log w ++ l.
Proof.
  revert w. induction items as [|x r IH]; intros w; [log_grows|].
  simpl. unfold bind. destruct (transform_log s x w) as [l1 H1].
  destruct (transform s x w) as [[[]|e] w1]; simpl in H1.
  - destruct (IH w1) as [l2 H2]. exists (l1 ++ l2).
    rewrite H2, H1, app_assoc. reflexivity.
  - exists l1. exact H1.
Qed.

Lemma success_log_sales w :
  success_log SalesLoadStrategy w =
    (Ok tt,
     {| loader := loader w;
        log := log w ++
               [Info_summary (size (categories (loader w))) (size (products (loader w)))
                  (size (contacts (loader w))) (summary_sales (loader w))] |}).
Proof. reflexivity. Qed.

Lemma load_log s fs w : exists l, log (snd (load s fs w)) = log w ++ l.
Proof.
  rewrite load_try. unfold stage_body, for_items.
  destruct (stage_source s fs) as [e|items fault]; [log_grows|].
  unfold bind. destruct (for_each_log s items w) as [l1 H1].
  destruct (for_each (transform s) items w) as [[[]|e] w1]; simpl in H1.
  - destruct fault as [e|]; simpl.
    + eexists. rewrite H1, <- app_assoc. reflexivity.
    + destruct s; simpl; eexists; rewrite H1, <- app_assoc; reflexivity.
  - eexists. simpl. rewrite H1, <- app_assoc. reflexivity.
Qed.

(** X16: the log is only ever appended to, by every stage and by
    [initialize_data], however they end; and an initialization that
    succeeds has logged its start first and the summary twice at the end,
    once by the sales stage and once by [initialize_data], both with the
    figures of the final loader. *)
Theorem initialization_log fs w :
  (forall s, exists l, log (snd (load s fs w)) = log w ++ l) /\
  (exists l, log (snd (initialize_data fs w)) = log w ++ Info_starting :: l) /\
  (fst (initialize_data fs w) = Ok tt ->
   exists mid,
     log (snd (initialize_data fs w))
       = log w ++ [Info_starting] ++ mid ++
         (let d := loader (snd (initialize_data fs w)) in
          let summary :=
            Info_summary (size (categories d)) (size (products d)) (size (contacts d))
                         (summary_sales d) in
          [summary; summary])).
Proof.
  split; [intros s; apply load_log|].
  rewrite initialize_data_unfold.
  destruct (load_log CategoryLoadStrategy fs (starting w)) as [l1 H1].
  destruct (load CategoryLoadStrategy fs (starting w)) as [[[]|e1] w1]; simpl in H1.
  2:{ split; [|discriminate]. eexists. simpl. rewrite H1, <- !app_assoc. reflexivity. }
  destruct (load_log ProductLoadStrategy fs w1) as [l2 H2].
  destruct (load ProductLoadStrategy fs w1) as [[[]|e2] w2]; simpl in H2.
  2:{ split; [|discriminate]. eexists. simpl.
      rewrite H2, H1, <- !app_assoc. reflexivity. }
  destruct (load_log ContactLoadStrategy fs w2) as [l3 H3].
  destruct (load ContactLoadStrategy fs w2) as [[[]|e3] w3]; simpl in H3.
  2:{ split; [|discriminate]. eexists. simpl.
      rewrite H3, H2, H1, <- !app_assoc. reflexivity. }
  rewrite load_try. unfold stage_body, for_items.
  destruct (stage_source SalesLoadStrategy fs) as [e|items fault].
  { split; [|discriminate]. eexists. simpl.
    rewrite H3, H2, H1, <- !app_assoc. reflexivity. }
  unfold bind. destruct (for_each_log SalesLoadStrategy items w3) as [l4 H4].
  destruct (for_each (transform SalesLoadStrategy) items w3) as [[[]|e] w4];
    simpl in H4.
  2:{ split; [|discriminate]. eexists. simpl.
      rewrite H4, H3, H2, H1, <- !app_assoc. reflexivity. }
  destruct fault as [e|]; simpl.
  { split; [|discriminate]. eexists.
    rewrite H4, H3, H2, H1, <- !app_assoc. reflexivity. }
  split.
  - eexists. rewrite H4, H3, H2, H1, <- !app_assoc. reflexivity.
  - intros _. exists (l1 ++ l2 ++ l3 ++ l4).
    rewrite H4, H3, H2, H1, <- !app_assoc. reflexivity.
Qed.

Lemma initialization_log_witness :
  exists mid,
    log (snd (initialize_data one_sale_files world_init))
      = log world_init ++ [Info_starting] ++ mid ++
        (let d := loader (snd (initialize_data one_sale_files world_init)) in
         let summary :=
           Info_summary (size (categories d)) (size (products d)) (size (contacts d))
                        (summary_sales d) in
         [summary; summary]).
Proof.
  apply (proj2 (proj2 (initialization_log one_sale_files world_init))).
  vm_compute. reflexivity.
Defined.

(** ** The factory *)

(** X17: [load_data] dispatches on the four known type names; for any
    other name the factory returns its [ValueError] object instead of
    raising it, and [load_data] raises [AttributeError] with the loader and
    the log untouched. So [load_data] raises either that [AttributeError]
    or the [DataLoaderException] of a stage. *)
Theorem load_data_dispatch fs data_type w :
  (forall s, get_loader data_type = inl s -> load_data fs data_type w = load s fs w) /\
  (data_type <> "categories" -> data_type <> "products" ->
   data_type <> "contacts" -> data_type <> "sales" ->
   get_loader data_type = inr ValueError /\
   load_data fs data_type w = (Raise AttributeError, w)) /\
  (forall e, fst (load_data fs data_type w) = Raise e ->
     e = AttributeError \/ exists s cause, e = wrapped s cause).
Proof.
  split; [|split].
  - intros s H. unfold load_data. rewrite H. reflexivity.
  - intros H1 H2 H3 H4. unfold load_data, get_loader.
    apply String.eqb_neq in H1, H2, H3, H4. rewrite H1, H2, H3, H4.
    split; reflexivity.
  - intros e. unfold load_data.
    destruct (get_loader data_type) as [s|v].
    + intros H. right. exists s. apply (load_raises_wrapped s fs w e H).
    + intros [= <-]. left. reflexivity.
Qed.

Lemma load_data_dispatch_witness :
  get_loader "orders" = inr ValueError /\
  load_data one_sale_files "orders" world_init = (Raise AttributeError, world_init).
Proof.
  apply (proj1 (proj2 (load_data_dispatch one_sale_files "orders" world_init)));
    discriminate.
Defined.

(** ** Sale records that are skipped *)

(** X18: [_process_sale] returns [False] only with the loader and the log
    untouched, and exactly for an object whose [create_date] is a string
    (or missing) and that is either outside the period or without a truthy
    product id. A record whose product reference is not a non-empty list,
    a bare scalar id included, is never counted and changes nothing. *)
Theorem process_sale_skips sale w :
  (fst (_process_sale sale w) = Ok false <->
   exists d s,
     sale = VDict d /\ default (VStr "") (dict_lookup "create_date" d) = VStr s /\
     (String.prefix "2024" s = false \/ truthy (sale_product_id sale) = false)) /\
  (fst (_process_sale sale w) = Ok false -> snd (_process_sale sale w) = w) /\
  ((forall x r, sale_field sale "product_id" VNone <> VList (x :: r)) ->
   fst (_process_sale sale w) <> Ok true /\ snd (_process_sale sale w) = w).
Proof.
  assert (F : truthy (sale_product_id sale) = false ->
              snd (_process_sale sale w) = w /\ fst (_process_sale sale w) <> Ok true)
    by apply process_sale_falsy_product.
  split; [|split].
  - unfold _process_sale, bind, py_get, py_startswith, py_hash, read, modify, ret, raise.
    destruct sale; simpl; try (split; [discriminate|intros (?&?&[=]&_)]).
    unfold sale_product_id, sale_field.
    destruct (default (VStr "") (dict_lookup "create_date" d)) eqn:Hd; simpl;
      try (split; [discriminate|intros (?&?&[= <-]&H&_); congruence]).
    destruct (String.prefix "2024" s) eqn:Hp; simpl.
    2:{ split; [|reflexivity]. intros _. exists d, s. rewrite Hd. auto. }
    destruct (truthy (extract_id (default VNone (dict_lookup "product_id" d)))) eqn:Ht;
      simpl.
    2:{ split; [|reflexivity]. intros _. exists d, s. rewrite Hd. auto. }
    split.
    + rewrite validate_numeric_run.
      destruct (py_float (default (VInt 0) (dict_lookup "product_uom_qty" d)))
        as [[]|q]; simpl; try discriminate;
      repeat match goal with
      | |- context [match hash_key ?x with _ => _ end] => destruct (hash_key x); simpl
      | |- context [if truthy ?x then _ else _] => destruct (truthy x); simpl
      end; discriminate.
    + intros (d' & s' & [= <-] & Hs & [H|H]).
      * rewrite Hd in Hs. injection Hs as <-. congruence.
      * congruence.
  - unfold _process_sale, bind, py_get, py_startswith, py_hash, read, modify, ret, raise.
    destruct sale; simpl; try discriminate.
    destruct (default (VStr "") (dict_lookup "create_date" d)); simpl; try discriminate.
    destruct (String.prefix "2024" s); simpl; [|reflexivity].
    destruct (truthy (extract_id (default VNone (dict_lookup "product_id" d))));
      simpl; [|reflexivity].
    rewrite validate_numeric_run.
    destruct (py_float (default (VInt 0) (dict_lookup "product_uom_qty" d)))
      as [[]|q]; simpl; try discriminate;
    repeat match goal with
    | |- context [match hash_key ?x with _ => _ end] => destruct (hash_key x); simpl
    | |- context [if truthy ?x then _ else _] => destruct (truthy x); simpl
    end; discriminate.
  - intros H. apply and_comm. apply F. unfold sale_product_id.
    destruct (sale_field sale "product_id" VNone) as [ | | | | |l| ]; try reflexivity.
    destruct l as [|x r]; [reflexivity|]. exfalso. apply (H x r). reflexivity.
Qed.

Lemma process_sale_skips_witness :
  let sale := VDict [("create_date", VStr "2024-05-05"); ("product_id", VInt 10);
                     ("product_uom_qty", VInt 2)] in
  fst (_process_sale sale world_init) <> Ok true /\
  snd (_process_sale sale world_init) = world_init.
Proof.
  intros sale.
  apply (proj2 (proj2 (process_sale_skips sale world_init))).
  intros x r. discriminate.
Defined.

(** ** Running a stage again, and an initialization that fails *)

Lemma load_frame s fs w :
  (s <> CategoryLoadStrategy ->
   category_tables (loader (snd (load s fs w))) = category_tables (loader w)) /\
  (s <> ProductLoadStrategy ->
   product_tables (loader (snd (load s fs w))) = product_tables (loader w)) /\
  (s <> ContactLoadStrategy ->
   contact_tables (loader (snd (load s fs w))) = contact_tables (loader w)) /\
  (s <> SalesLoadStrategy ->
   aggregates (loader (snd (load s fs w))) = aggregates (loader w)).
Proof.
  destruct (load_den s fs w) as [_ ->].
  apply apply_ops_frame, stage_den_made_by.
Qed.

Lemma apply_ops_twice s ops d :
  s <> SalesLoadStrategy -> forallb (made_by s) ops = true ->
  apply_ops ops (apply_ops ops d) = apply_ops ops d.
Proof.
  intros Hs Hops.
  destruct (apply_ops_frame s ops (apply_ops ops d) Hops) as (_ & _ & _ & Fa).
  destruct (apply_ops_fields ops d) as (E1 & E2 & E3 & E4 & E5 & E6).
  destruct (apply_ops_fields ops (apply_ops ops d)) as (T1 & T2 & T3 & T4 & T5 & T6).
  pose proof (apply_ops_codes ops d) as E7.
  pose proof (apply_ops_codes ops (apply_ops ops d)) as T7.
  apply loader_ext; [| | |exact (Fa Hs)];
    unfold category_tables, product_tables, contact_tables;
    rewrite ?T1, ?T2, ?T3, ?T4, ?T5, ?T6, ?T7, ?E1, ?E2, ?E3, ?E4, ?E5, ?E6, ?E7,
      ?puts_twice, ?codes_twice; reflexivity.
Qed.

(** X19: running the category, product or contact stage a second time on
    the same files has the same outcome and leaves the whole loader as the
    first run left it: these stages only overwrite entries by id and keep
    existing country codes. *)
Theorem reference_stage_again s fs w :
  s <> SalesLoadStrategy ->
  let w1 := snd (load s fs w) in
  fst (load s fs w1) = fst (load s fs w) /\
  loader (snd (load s fs w1)) = loader w1.
Proof.
  intros Hs w1. subst w1.
  destruct (load_den s fs w) as [R1 L1].
  destruct (load_den s fs (snd (load s fs w))) as [R2 L2].
  rewrite (stage_den_early s fs _ (refs_of (loader w)) Hs) in R2, L2.
  split; [congruence|].
  rewrite L2, L1. apply (apply_ops_twice s); [exact Hs|apply stage_den_made_by].
Qed.

Lemma reference_stage_again_witness :
  let w1 := snd (load ContactLoadStrategy one_sale_files world_init) in
  fst (load ContactLoadStrategy one_sale_files w1)
    = fst (load ContactLoadStrategy one_sale_files world_init) /\
  loader (snd (load ContactLoadStrategy one_sale_files w1)) = loader w1.
Proof.
  apply (reference_stage_again ContactLoadStrategy one_sale_files world_init).
  discriminate.
Defined.

(** X20: when [initialize_data] raises the exception of a stage, the tables
    of the stages after it are as they were before the call: nothing of a
    later stage has run, and the earlier and the failing stage write their
    own tables only. *)
Theorem failed_initialization_spares_later_tables fs w s cause :
  fst (initialize_data fs w) = Raise (wrapped s cause) ->
  let d := loader w in
  let d' := loader (snd (initialize_data fs w)) in
  (s <> SalesLoadStrategy -> aggregates d' = aggregates d) /\
  (s = CategoryLoadStrategy \/ s = ProductLoadStrategy ->
   contact_tables d' = contact_tables d) /\
  (s = CategoryLoadStrategy -> product_tables d' = product_tables d).
Proof.
  cbv zeta. rewrite initialize_data_unfold.
  pose proof (load_raises_wrapped CategoryLoadStrategy fs (starting w)) as R1.
  pose proof (load_frame CategoryLoadStrategy fs (starting w)) as (_ & P1 & C1 & A1).
  destruct (load CategoryLoadStrategy fs (starting w)) as [[[]|e1] w1];
    unfold failed, starting in *; cbn [fst snd loader] in *.
  2:{ intros [= E]. destruct (R1 e1 eq_refl) as [c ->].
      assert (s = CategoryLoadStrategy) as ->
        by (destruct s; try reflexivity; discriminate E).
      split; [intros _; apply A1; discriminate|].
      split; [intros _; apply C1; discriminate|].
      intros _; apply P1; discriminate. }
  pose proof (load_raises_wrapped ProductLoadStrategy fs w1) as R2.
  pose proof (load_frame ProductLoadStrategy fs w1) as (_ & _ & C2 & A2).
  destruct (load ProductLoadStrategy fs w1) as [[[]|e2] w2];
    unfold failed, starting in *; cbn [fst snd loader] in *.
  2:{ intros [= E]. destruct (R2 e2 eq_refl) as [c ->].
      assert (s = ProductLoadStrategy) as ->
        by (destruct s; try reflexivity; discriminate E).
      split; [intros _; rewrite A2, A1 by discriminate; reflexivity|].
      split; [intros _; rewrite C2, C1 by discriminate; reflexivity|].
      discriminate. }
  pose proof (load_raises_wrapped ContactLoadStrategy fs w2) as R3.
  pose proof (load_frame ContactLoadStrategy fs w2) as (_ & _ & _ & A3).
  destruct (load ContactLoadStrategy fs w2) as [[[]|e3] w3];
    unfold failed, starting in *; cbn [fst snd loader] in *.
  2:{ intros [= E]. destruct (R3 e3 eq_refl) as [c ->].
      assert (s = ContactLoadStrategy) as ->
        by (destruct s; try reflexivity; discriminate E).
      split; [intros _; rewrite A3, A2, A1 by discriminate; reflexivity|].
      split; [intros [H|H]; discriminate H|discriminate]. }
  pose proof (load_raises_wrapped SalesLoadStrategy fs w3) as R4.
  destruct (load SalesLoadStrategy fs w3) as [[[]|e4] w4];
    unfold failed, starting in *; cbn [fst snd loader] in *.
  2:{ intros [= E]. destruct (R4 e4 eq_refl) as [c ->].
      assert (s = SalesLoadStrategy) as ->
        by (destruct s; try reflexivity; discriminate E).
      split; [intros H; exfalso; apply H; reflexivity|].
      split; [intros [H|H]; discriminate H|discriminate]. }
  unfold log_data_summary, bind, read, logger, modify, ret. simpl. discriminate.
Qed.

Lemma failed_initialization_spares_later_tables_witness :
  let d' := loader (snd (initialize_data missing_products_files world_init)) in
  aggregates d' = aggregates (loader world_init) /\
  contact_tables d' = contact_tables (loader world_init) /\
  categories d' <> categories (loader world_init).
Proof.
  intros d'.
  destruct (failed_initialization_spares_later_tables missing_products_files world_init
              ProductLoadStrategy OSError) as (A & C & _).
  - vm_compute. reflexivity.
  - split; [apply A; discriminate|]. split; [apply C; right; reflexivity|].
    intros H. apply (f_equal (fun m => m !! KNum (Q2Qc 1))) in H.
    vm_compute in H. discriminate.
Defined.

